(** * Fedpath: credential store, external data clients and route journal

    A shallow embedding of [main.py].  Python values are a small tagged
    union, floats are IEEE-754 binary64 (the kernel's primitive floats),
    exceptions are an error result, and everything the program touches
    outside its own process (the UI log written by [st.error] and
    [st.write], the HTTP endpoints, the MySQL table and the journal file)
    is one explicit [world] threaded through a state-and-error monad. *)

From Stdlib Require Import ZArith List String Ascii Bool Lia Floats DecimalString.
Import ListNotations.

#[local] Set Warnings "-inexact-float,-register-all".
#[local] Open Scope string_scope.
#[local] Open Scope Z_scope.

(** ** Python values *)

(** What [json.load] / [Response.json()] produce, which is also all the
    program computes with: [None], booleans, unbounded ints, floats,
    strings, lists and string-keyed dicts (a dict is its item list, keys
    pairwise distinct, in insertion order). *)
Inductive pyval : Type :=
| VNone
| VBool (b : bool)
| VInt (z : Z)
| VFloat (f : float)
| VStr (s : string)
| VList (items : list pyval)
| VDict (items : list (string * pyval)).

(** The exception classes that can reach the program.  Every one of them
    derives from [Exception]. *)
Inductive exn : Type :=
| FileNotFoundError
| JSONDecodeError
| KeyError (key : string)
| IndexError
| TypeError
| AttributeError
| ValueError
| ZeroDivisionError
| OverflowError
| UnicodeDecodeError
| RecursionError
| RequestException (text : string)
| OperationalError
| ProgrammingError
| DataError
| IntegrityError.

Inductive result (A : Type) : Type :=
| Ok (a : A)
| Raise (e : exn).
Arguments Ok {A} a.
Arguments Raise {A} e.

(** ** Float and int arithmetic as Python performs it *)

Module PyNum.

Definition Z2SF (z : Z) : spec_float :=
  match z with
  | Z0 => S754_zero false
  | Zpos p => S754_finite false p 0
  | Zneg p => S754_finite true p 0
  end.

(** [float(z)]: the nearest double, ties to even; an int beyond the
    double range raises [OverflowError]. *)
Definition float_of_int (z : Z) : result float :=
  let r := SF2Prim (binary_normalize prec emax z 0 false) in
  if is_finite r then Ok r else Raise OverflowError.

(** [a / b] on two ints: the correctly rounded quotient. *)
Definition int_true_divide (a b : Z) : result float :=
  if b =? 0 then Raise ZeroDivisionError
  else
    let r := SF2Prim (SFdiv prec emax (Z2SF a) (Z2SF b)) in
    if is_finite r then Ok r else Raise OverflowError.

(** [a / b] on two floats: IEEE division, except that a zero divisor
    raises. *)
Definition float_div (a b : float) : result float :=
  if (b =? 0)%float then Raise ZeroDivisionError else Ok (a / b)%float.

(** The numeric tower: [bool] is a subclass of [int]. *)
Inductive num : Type :=
| NInt (z : Z)
| NFloat (f : float).

Definition as_num (v : pyval) : option num :=
  match v with
  | VBool b => Some (NInt (if b then 1 else 0))
  | VInt z => Some (NInt z)
  | VFloat f => Some (NFloat f)
  | _ => None
  end.

Definition to_float (n : num) : result float :=
  match n with
  | NInt z => float_of_int z
  | NFloat f => Ok f
  end.

(** [x / y] (true division, always a float). *)
Definition truediv (x y : pyval) : result float :=
  match as_num x, as_num y with
  | Some (NInt a), Some (NInt b) => int_true_divide a b
  | Some a, Some b =>
      match to_float a with
      | Raise e => Raise e
      | Ok fa =>
          match to_float b with
          | Raise e => Raise e
          | Ok fb => float_div fa fb
          end
      end
  | _, _ => Raise TypeError
  end.

(** [x * y] for a float [x]; [y] is a number here (a float times a
    string or a list is a [TypeError]). *)
Definition float_mul (x : float) (y : pyval) : result float :=
  match as_num y with
  | Some n =>
      match to_float n with
      | Raise e => Raise e
      | Ok fy => Ok (x * fy)%float
      end
  | None => Raise TypeError
  end.

(** [0 < y]. *)
Definition positive (y : pyval) : bool :=
  match as_num y with
  | Some (NInt z) => 0 <? z
  | Some (NFloat f) => (0 <? f)%float
  | None => false
  end.

End PyNum.

(** ** Subscripts, membership and truth *)

Module Py.

Fixpoint lookup (k : string) (items : list (string * pyval)) : option pyval :=
  match items with
  | [] => None
  | (k', v) :: rest => if String.eqb k k' then Some v else lookup k rest
  end.

(** [v[k]] with a string key. *)
Definition getitem (v : pyval) (k : string) : result pyval :=
  match v with
  | VDict items =>
      match lookup k items with
      | Some x => Ok x
      | None => Raise (KeyError k)
      end
  | _ => Raise TypeError
  end.

(** [v[0]]. *)
Definition first (v : pyval) : result pyval :=
  match v with
  | VList (x :: _) => Ok x
  | VList [] => Raise IndexError
  | VStr (String c _) => Ok (VStr (String c EmptyString))
  | VStr EmptyString => Raise IndexError
  | VDict _ => Raise (KeyError "0")
  | _ => Raise TypeError
  end.

(** [v.get(k)] and [v.get(k, default)]: only a dict has the method. *)
Definition get (v : pyval) (k : string) (default : pyval) : result pyval :=
  match v with
  | VDict items =>
      match lookup k items with
      | Some x => Ok x
      | None => Ok default
      end
  | _ => Raise AttributeError
  end.

(** [bool(v)]. *)
Definition truthy (v : pyval) : bool :=
  match v with
  | VNone => false
  | VBool b => b
  | VInt z => negb (z =? 0)
  | VFloat f => negb (f =? 0)%float
  | VStr s => negb (String.eqb s "")
  | VList items => match items with [] => false | _ => true end
  | VDict items => match items with [] => false | _ => true end
  end.

Definition is_str (s : string) (v : pyval) : bool :=
  match v with
  | VStr s' => String.eqb s s'
  | _ => false
  end.

Definition is_dict (v : pyval) : bool :=
  match v with
  | VDict _ => true
  | _ => false
  end.

Fixpoint substring_at (needle hay : string) : bool :=
  match needle, hay with
  | EmptyString, _ => true
  | String a n', String b h' => Ascii.eqb a b && substring_at n' h'
  | String _ _, EmptyString => false
  end.

Fixpoint substring (needle hay : string) : bool :=
  substring_at needle hay
  || match hay with
     | EmptyString => false
     | String _ h' => substring needle h'
     end.

(** [k in v] for a string [k]: key test on a dict, element test on a
    list, substring test on a string; anything else is not iterable. *)
Definition contains (k : string) (v : pyval) : result bool :=
  match v with
  | VDict items =>
      Ok (match lookup k items with Some _ => true | None => false end)
  | VList items => Ok (existsb (is_str k) items)
  | VStr s => Ok (substring k s)
  | _ => Raise TypeError
  end.

End Py.

(** ** SHA-256 (FIPS 180-4), as [hashlib.sha256(b).hexdigest()] computes it *)

Module SHA256.

Definition wrap (x : Z) : Z := x mod 2 ^ 32.

Definition add32 (x y : Z) : Z := wrap (x + y).

Definition rotr (n x : Z) : Z :=
  wrap (Z.lor (Z.shiftr x n) (Z.shiftl x (32 - n))).

Definition xor3 (x y z : Z) : Z := Z.lxor (Z.lxor x y) z.

Definition ch (x y z : Z) : Z :=
  Z.lxor (Z.land x y) (Z.land (wrap (Z.lnot x)) z).

Definition maj (x y z : Z) : Z :=
  xor3 (Z.land x y) (Z.land x z) (Z.land y z).

Definition big_sigma0 (x : Z) : Z := xor3 (rotr 2 x) (rotr 13 x) (rotr 22 x).
Definition big_sigma1 (x : Z) : Z := xor3 (rotr 6 x) (rotr 11 x) (rotr 25 x).
Definition small_sigma0 (x : Z) : Z := xor3 (rotr 7 x) (rotr 18 x) (Z.shiftr x 3).
Definition small_sigma1 (x : Z) : Z := xor3 (rotr 17 x) (rotr 19 x) (Z.shiftr x 10).

(** The first 64 primes. *)
Definition primes : list Z :=
  [2; 3; 5; 7; 11; 13; 17; 19; 23; 29; 31; 37; 41; 43; 47; 53; 59; 61; 67; 71;
   73; 79; 83; 89; 97; 101; 103; 107; 109; 113; 127; 131; 137; 139; 149; 151;
   157; 163; 167; 173; 179; 181; 191; 193; 197; 199; 211; 223; 227; 229; 233;
   239; 241; 251; 257; 263; 269; 271; 277; 281; 283; 293; 307; 311].

(** The integer cube root below [2 ^ bits], one bit at a time. *)
Fixpoint cube_root (bits : nat) (n acc : Z) : Z :=
  match bits with
  | O => acc
  | S k =>
      let c := acc + 2 ^ Z.of_nat k in
      cube_root k n (if c * c * c <=? n then c else acc)
  end.

(** The round constants: the first 32 bits of the fractional part of the
    cube root of each prime. *)
Definition K : list Z :=
  Eval vm_compute in map (fun p => wrap (cube_root 40 (p * 2 ^ 96) 0)) primes.

Definition state : Type := Z * Z * Z * Z * Z * Z * Z * Z.

(** The first 32 bits of the fractional part of the square root of a
    prime. *)
Definition root_bits (p : Z) : Z := wrap (Z.sqrt (p * 2 ^ 64)).

(** The initial hash value, from the first 8 primes. *)
Definition initial : state :=
  Eval vm_compute in
    (root_bits 2, root_bits 3, root_bits 5, root_bits 7,
     root_bits 11, root_bits 13, root_bits 17, root_bits 19).

Definition bytes_of_string (s : string) : list Z :=
  map (fun c => Z.of_N (N_of_ascii c)) (list_ascii_of_string s).

Fixpoint big_endian (n : nat) (x : Z) : list Z :=
  match n with
  | O => []
  | S k => Z.shiftr x (8 * Z.of_nat k) mod 256 :: big_endian k x
  end.

(** The message, a 1 bit, zeros up to 56 mod 64 bytes, the bit length. *)
Definition pad (msg : list Z) : list Z :=
  let len := Z.of_nat (List.length msg) in
  (msg ++ [0x80] ++ repeat 0 (Z.to_nat ((55 - len) mod 64))
   ++ big_endian 8 (8 * len))%list.

Fixpoint words (bytes : list Z) : list Z :=
  match bytes with
  | a :: b :: c :: d :: rest =>
      (Z.shiftl a 24 + Z.shiftl b 16 + Z.shiftl c 8 + d) :: words rest
  | _ => []
  end.

Fixpoint blocks (n : nat) (ws : list Z) : list (list Z) :=
  match n, ws with
  | S k, _ :: _ => firstn 16 ws :: blocks k (skipn 16 ws)
  | _, _ => []
  end.

(** The message schedule, newest word first. *)
Fixpoint extend (n : nat) (w : list Z) : list Z :=
  match n with
  | O => w
  | S k =>
      let at_ i := nth i w 0 in
      extend k (add32 (add32 (small_sigma1 (at_ 1%nat)) (at_ 6%nat))
                      (add32 (small_sigma0 (at_ 14%nat)) (at_ 15%nat)) :: w)
  end.

Definition schedule (block : list Z) : list Z := rev (extend 48 (rev block)).

Definition round (s : state) (kw : Z * Z) : state :=
  let '(a, b, c, d, e, f, g, h) := s in
  let t1 := add32 (add32 (add32 h (big_sigma1 e)) (add32 (ch e f g) (fst kw))) (snd kw) in
  let t2 := add32 (big_sigma0 a) (maj a b c) in
  (add32 t1 t2, a, b, c, add32 d t1, e, f, g).

Definition compress (s : state) (block : list Z) : state :=
  let '(a, b, c, d, e, f, g, h) := s in
  let '(a', b', c', d', e', f', g', h') := fold_left round (combine K (schedule block)) s in
  (add32 a a', add32 b b', add32 c c', add32 d d',
   add32 e e', add32 f f', add32 g g', add32 h h').

Definition digest (msg : list Z) : state :=
  let ws := words (pad msg) in
  fold_left compress (blocks (List.length ws) ws) initial.

Definition hex_digit (n : Z) : ascii :=
  nth (Z.to_nat n) (list_ascii_of_string "0123456789abcdef") "0"%char.

Definition hex_word (x : Z) : string :=
  string_of_list_ascii
    (map (fun i => hex_digit (Z.shiftr x (4 * i) mod 16)) [7; 6; 5; 4; 3; 2; 1; 0]).

Definition hexdigest (s : string) : string :=
  let '(a, b, c, d, e, f, g, h) := digest (bytes_of_string s) in
  hex_word a ++ hex_word b ++ hex_word c ++ hex_word d
  ++ hex_word e ++ hex_word f ++ hex_word g ++ hex_word h.

End SHA256.

(** ** The world outside the process *)

(** What the Streamlit calls put on the page, oldest first. *)
Inductive ui_event : Type :=
| StError (text : string)
| StWrite (text : string)
| StSuccess (text : string).

(** Where the [json] decoder gives up on text that is JSON: an integer
    of more than 4300 digits ([ValueError]), nesting beyond the
    recursion limit ([RecursionError]). *)
Inductive json_limit : Type :=
| TooManyDigits
| TooDeep.

Definition limit_error (l : json_limit) : exn :=
  match l with
  | TooManyDigits => ValueError
  | TooDeep => RecursionError
  end.

(** [requests.get(url).json()]: some [RequestException] (no connection,
    timeout, a body that is not JSON), the decoded body, or a body
    beyond the decoder's limits, whose exception is none of
    [requests]. *)
Inductive http_outcome : Type :=
| NetFail (text : string)
| Body (v : pyval)
| Refused (limit : json_limit).

(** The bytes of a file, by what [open(..., "r")] and [json.load] make
    of them: the value they decode to, text that is not JSON, bytes
    that are not text in the encoding [open] reads with, or JSON beyond
    the decoder's limits.  [json.dump v] writes bytes that decode to
    [v] again. *)
Inductive file_body : Type :=
| Parses (v : pyval)
| Malformed (raw : string)
| Undecodable (raw : string)
| Exceeds (limit : json_limit).

(** A row of [users] (lines 32-41). *)
Record user_row : Type := {
  id : Z;
  first_name : string;
  last_name : string;
  username : string;
  password : string;
  mobile_number : string;
  vehicle_number : string;
  vehicle_type : string
}.

(** The MySQL server: whether [engine.connect()] gets through, the
    [users] table once it is created, and its AUTO_INCREMENT counter. *)
Record database : Type := {
  reachable : bool;
  users : option (list user_row);
  auto_increment : Z
}.

Record world : Type := {
  ui : list ui_event;
  net : string -> http_outcome;
  db : database;
  journal : option file_body
}.

Definition with_ui (w : world) (u : list ui_event) : world :=
  {| ui := u; net := net w; db := db w; journal := journal w |}.

Definition with_db (w : world) (d : database) : world :=
  {| ui := ui w; net := net w; db := d; journal := journal w |}.

Definition with_journal (w : world) (j : option file_body) : world :=
  {| ui := ui w; net := net w; db := db w; journal := j |}.

(** ** Computations: state passing with exceptions *)

Definition M (A : Type) : Type := world -> result A * world.

Definition ret {A} (a : A) : M A := fun w => (Ok a, w).

Definition raise {A} (e : exn) : M A := fun w => (Raise e, w).

Definition bind {A B} (c : M A) (k : A -> M B) : M B :=
  fun w =>
    match c w with
    | (Ok a, w') => k a w'
    | (Raise e, w') => (Raise e, w')
    end.

Declare Scope py_scope.
Delimit Scope py_scope with py.
Notation "x <- c ;; k" := (bind c (fun x => k))
  (at level 61, c at next level, right associativity) : py_scope.
Notation "c ;; k" := (bind c (fun _ => k))
  (at level 61, right associativity) : py_scope.
#[local] Open Scope py_scope.

Definition lift {A} (r : result A) : M A := fun w => (r, w).

(** [try: body  except <class> as e: handler e].  What the body did to
    the world before it raised stays done. *)
Definition try_except {A} (body : M A) (caught : exn -> bool) (handler : exn -> M A) : M A :=
  fun w =>
    match body w with
    | (Ok a, w') => (Ok a, w')
    | (Raise e, w') => if caught e then handler e w' else (Raise e, w')
    end.

Definition any_Exception (e : exn) : bool := true.

Definition is_RequestException (e : exn) : bool :=
  match e with
  | RequestException _ => true
  | _ => false
  end.

Definition is_FileNotFoundError (e : exn) : bool :=
  match e with
  | FileNotFoundError => true
  | _ => false
  end.

Definition emit (e : ui_event) : M unit :=
  fun w => (Ok tt, with_ui w (ui w ++ [e])%list).

Definition st_error (text : string) : M unit := emit (StError text).
Definition st_write (text : string) : M unit := emit (StWrite text).
Definition st_success (text : string) : M unit := emit (StSuccess text).

Definition requests_get_json (url : string) : M pyval :=
  fun w =>
    match net w url with
    | NetFail text => (Raise (RequestException text), w)
    | Body v => (Ok v, w)
    | Refused limit => (Raise (limit_error limit), w)
    end.

(** ** What the libraries and the deployment supply *)

(** The text-producing library calls and the two API keys read from the
    environment; the program only passes these results along. *)
Record platform : Type := {
  TOMTOM_API_KEY : string;
  AQICN_API_KEY : string;
  (** [str(v)] of a value that is not already a string *)
  repr : pyval -> string;
  (** [str(e)] of a caught exception *)
  exn_text : exn -> string;
  (** [format(x, ".2f")] *)
  fixed2 : float -> string;
  (** the AUTO_INCREMENT counter after a rejected INSERT (storage
      engines differ on whether the value is consumed) *)
  counter_after_reject : Z -> Z;
  (** the pairs of different strings that [=] on the columns of [users]
      takes as equal: the table is created without COLLATE, and the
      server's default collations ignore letter case (some also
      trailing blanks) *)
  collate : string -> string -> bool;
  (** what a [VARCHAR(n)] column makes of a value of more than [n]
      bytes: it stores the value as it is when that has at most [n]
      characters, stores it cut of its excess trailing blanks, or
      refuses it ("Data too long") *)
  overflow : nat -> string -> option string
}.

Section Fedpath.

Variable P : platform.

(** [f"{v}"]. *)
Definition fmt (v : pyval) : string :=
  match v with
  | VStr s => s
  | _ => repr P v
  end.

(** [f"{n}"] for a small non-negative int. *)
Definition decimal (n : nat) : string :=
  NilEmpty.string_of_uint (Nat.to_uint n).

(** [f"{v:.2f}"]: ints and bools are formatted as floats, a string has no
    such format code, the other types do not take a format string. *)
Definition format_2f (v : pyval) : result string :=
  match v with
  | VStr _ => Raise ValueError
  | _ =>
      match PyNum.as_num v with
      | Some n =>
          match PyNum.to_float n with
          | Ok f => Ok (fixed2 P f)
          | Raise e => Raise e
          end
      | None => Raise TypeError
      end
  end.

(** *** Credential store (lines 28-84) *)

Definition empty_counter : Z := 1.

(** [engine.connect()]. *)
Definition connect : M unit :=
  fun w => if reachable (db w) then (Ok tt, w) else (Raise OperationalError, w).

(** [conn.commit()]: the statement's effect is already in [db]; nothing
    runs between [execute] and [commit]. *)
Definition commit : M unit := ret tt.

(** [CREATE TABLE IF NOT EXISTS users (...)]. *)
Definition execute_create_table : M unit :=
  fun w =>
    match users (db w) with
    | Some _ => (Ok tt, w)
    | None =>
        (Ok tt, with_db w {| reachable := reachable (db w);
                             users := Some [];
                             auto_increment := empty_counter |})
    end.

Definition create_user_table : M unit :=
  connect ;; execute_create_table ;; commit.

(** A [string] is the byte string [password.encode()] yields. *)
Definition hash_password (password : string) : string :=
  SHA256.hexdigest password.

(** At most [n] bytes, hence at most [n] characters. *)
Definition fits (n : nat) (s : string) : bool :=
  Nat.leb (String.length s) n.

(** [a = b] on two [VARCHAR] values: equal strings are equal under
    every collation. *)
Definition sql_eq (a b : string) : bool :=
  String.eqb a b || collate P a b.

(** What a [VARCHAR(n)] column keeps of a value that its character
    set can hold: a value of at most [n] bytes as it is. *)
Definition varchar (n : nat) (s : string) : option string :=
  if fits n s then Some s else overflow P n s.

(** The row as the columns of lines 34-40 keep it. *)
Definition store (r : user_row) : option user_row :=
  match varchar 50 (first_name r), varchar 50 (last_name r),
        varchar 50 (username r), varchar 255 (password r),
        varchar 15 (mobile_number r), varchar 20 (vehicle_number r),
        varchar 50 (vehicle_type r) with
  | Some fn, Some ln, Some u, Some pw, Some mobile, Some vnum, Some vtype =>
      Some {| id := id r;
              first_name := fn; last_name := ln; username := u;
              password := pw; mobile_number := mobile;
              vehicle_number := vnum; vehicle_type := vtype |}
  | _, _, _, _, _, _, _ => None
  end.

(** [username VARCHAR(50) UNIQUE]: some row's name equals, in the
    collation, the name as the column would keep it.  The first test
    is for the typed name itself: a row that the server stored can
    hold it only when the column keeps it as typed, where the second
    test finds it too, so that it adds nothing on a table of the
    server and gives lists of rows the server never stored the same
    answer. *)
Definition username_taken (typed kept : string) (rows : list user_row) : bool :=
  existsb (fun r => String.eqb (username r) typed || sql_eq (username r) kept) rows.

(** The largest [INT]. *)
Definition int_max : Z := 2147483647.

Definition reject (e : exn) : M unit :=
  fun w =>
    (Raise e, with_db w {| reachable := reachable (db w);
                           users := users (db w);
                           auto_increment := counter_after_reject P (auto_increment (db w)) |}).

(** [INSERT INTO users (first_name, ..., vehicle_type) VALUES (...)]. *)
Definition execute_insert (fn ln u pw mobile vnum vtype : string) : M unit :=
  fun w =>
    match users (db w) with
    | None => (Raise ProgrammingError, w)
    | Some rows =>
        let r := {| id := auto_increment (db w);
                    first_name := fn; last_name := ln; username := u;
                    password := pw; mobile_number := mobile;
                    vehicle_number := vnum; vehicle_type := vtype |} in
        match store r with
        | None => reject DataError w
        | Some kept =>
            if username_taken u (username kept) rows then reject IntegrityError w
            else if int_max <? id kept then reject IntegrityError w
            else (Ok tt, with_db w {| reachable := reachable (db w);
                                      users := Some (rows ++ [kept])%list;
                                      auto_increment := auto_increment (db w) + 1 |})
        end
    end.

(** [SELECT * FROM users WHERE username = :username AND password =
    :password], then [fetchone()]. *)
Definition execute_select (u pw : string) : M (option user_row) :=
  fun w =>
    match users (db w) with
    | None => (Raise ProgrammingError, w)
    | Some rows =>
        (Ok (find (fun r => sql_eq (username r) u && sql_eq (password r) pw) rows), w)
    end.

Definition signup_user (fn ln u pw mobile vnum vtype : string) : M bool :=
  try_except
    (connect ;;
     let hashed_password := hash_password pw in
     execute_insert fn ln u hashed_password mobile vnum vtype ;;
     commit ;;
     ret true)
    any_Exception
    (fun e => st_error ("Signup failed: " ++ exn_text P e) ;; ret false).

Definition login_user (u pw : string) : M bool :=
  try_except
    (connect ;;
     let hashed_password := hash_password pw in
     row <- execute_select u hashed_password ;;
     ret (match row with Some _ => true | None => false end))
    any_Exception
    (fun e => st_error ("Login failed: " ++ exn_text P e) ;; ret false).

(** *** Air-quality client (lines 86-108) *)

Definition weather_url (city : string) : string :=
  "http://api.waqi.info/feed/" ++ city ++ "/?token=" ++ AQICN_API_KEY P.

Definition get_weather_details (city : string) : M (pyval * pyval) :=
  if Py.truthy (VStr city) then
    try_except
      (response <- requests_get_json (weather_url city) ;;
       status <- lift (Py.get response "status" VNone) ;;
       valid <- (if negb (Py.is_str "error" status)
                 then data <- lift (Py.get response "data" VNone) ;;
                      ret (Py.is_dict data)
                 else ret false) ;;
       if valid then
         data <- lift (Py.getitem response "data") ;;
         air_quality_index <- lift (Py.get data "aqi" (VStr "N/A")) ;;
         data' <- lift (Py.getitem response "data") ;;
         city_info <- lift (Py.get data' "city" (VDict [])) ;;
         weather_city <- lift (Py.get city_info "name" (VStr "Unknown")) ;;
         ret (air_quality_index, weather_city)
       else
         error_message <- lift (Py.get response "data" (VStr "Unknown error")) ;;
         st_error ("Error fetching weather data: " ++ fmt error_message) ;;
         ret (VStr "N/A", VStr "City not found"))
      is_RequestException
      (fun e =>
         st_error ("Error fetching data: " ++ exn_text P e) ;;
         ret (VStr "N/A", VStr "Error fetching data"))
  else
    st_error "City not provided. Please enter a valid city." ;;
    ret (VStr "N/A", VStr "City not provided").

(** *** Geocoding and routing client (lines 110-146) *)

Definition geocode_url (location : string) : string :=
  "https://api.tomtom.com/search/2/geocode/" ++ location
  ++ ".json?key=" ++ TOMTOM_API_KEY P.

Definition geocode_location (location : string) : M (pyval * pyval) :=
  response <- requests_get_json (geocode_url location) ;;
  results <- lift (Py.get response "results" VNone) ;;
  if Py.truthy results then
    results' <- lift (Py.getitem response "results") ;;
    best <- lift (Py.first results') ;;
    position <- lift (Py.getitem best "position") ;;
    lat <- lift (Py.getitem position "lat") ;;
    lon <- lift (Py.getitem position "lon") ;;
    ret (lat, lon)
  else
    st_error ("Unable to geocode location: " ++ location) ;;
    ret (VNone, VNone).

(** Lines 134-140. *)
Definition emission_factor (vehicle : string) : pyval :=
  if String.eqb vehicle "Gasoline" then VFloat 2.31
  else if String.eqb vehicle "Diesel" then VFloat 2.68
  else VInt 0.

(** Line 142: [(route_distance / fuel_efficiency) * emission_factor]. *)
Definition estimate_emissions (vehicle : string) (route_distance : float)
    (fuel_efficiency : pyval) : result float :=
  match PyNum.truediv (VFloat route_distance) fuel_efficiency with
  | Raise e => Raise e
  | Ok per_unit => PyNum.float_mul per_unit (emission_factor vehicle)
  end.

Definition route_url (start_lat start_lon end_lat end_lon : pyval) : string :=
  "https://api.tomtom.com/routing/1/calculateRoute/"
  ++ fmt start_lat ++ "," ++ fmt start_lon ++ ":"
  ++ fmt end_lat ++ "," ++ fmt end_lon ++ "/json"
  ++ "?key=" ++ TOMTOM_API_KEY P ++ "&computeTravelTimeFor=all".

Definition absent_route : pyval * pyval * pyval * pyval :=
  (VNone, VNone, VNone, VNone).

Definition get_route_details (start_lat start_lon end_lat end_lon : pyval)
    (vehicle : string) (fuel_efficiency : pyval)
  : M (pyval * pyval * pyval * pyval) :=
  route_response <-
    requests_get_json (route_url start_lat start_lon end_lat end_lon) ;;
  has_routes <- lift (Py.contains "routes" route_response) ;;
  if has_routes then
    routes <- lift (Py.getitem route_response "routes") ;;
    route <- lift (Py.first routes) ;;
    summary <- lift (Py.getitem route "summary") ;;
    seconds <- lift (Py.getitem summary "travelTimeInSeconds") ;;
    travel_time <- lift (PyNum.truediv seconds (VInt 60)) ;;
    summary' <- lift (Py.getitem route "summary") ;;
    meters <- lift (Py.getitem summary' "lengthInMeters") ;;
    route_distance <- lift (PyNum.truediv meters (VInt 1000)) ;;
    legs <- lift (Py.getitem route "legs") ;;
    leg <- lift (Py.first legs) ;;
    geometry <- lift (Py.getitem leg "points") ;;
    emissions <- lift (estimate_emissions vehicle route_distance fuel_efficiency) ;;
    ret (VFloat travel_time, VFloat route_distance, VFloat emissions, geometry)
  else
    st_error "Unable to calculate route. Check your locations!" ;;
    ret absent_route.

(** *** Route journal (lines 235-257 and 283-301) *)

(** [with open("saved_routes.json", "r") as f: json.load(f)]. *)
Definition load_journal : M pyval :=
  fun w =>
    match journal w with
    | None => (Raise FileNotFoundError, w)
    | Some (Parses v) => (Ok v, w)
    | Some (Malformed _) => (Raise JSONDecodeError, w)
    | Some (Undecodable _) => (Raise UnicodeDecodeError, w)
    | Some (Exceeds limit) => (Raise (limit_error limit), w)
    end.

(** [with open("saved_routes.json", "w") as f: json.dump(v, f)]. *)
Definition dump_journal (v : pyval) : M unit :=
  fun w => (Ok tt, with_journal w (Some (Parses v))).

(** [l.append(x)]: only a list has the method. *)
Definition append (l x : pyval) : result pyval :=
  match l with
  | VList items => Ok (VList (items ++ [x])%list)
  | _ => Raise AttributeError
  end.

(** A route summary as the Save Route button collects it. *)
Record summary : Type := {
  weather_city : string;
  start_location : string;
  end_location : string;
  travel_time : float;
  route_distance : float;
  emissions : float;
  route_map : string
}.

(** Lines 235-243. *)
Definition saved_data (s : summary) : pyval :=
  VDict [("weather_city", VStr (weather_city s));
         ("start_location", VStr (start_location s));
         ("end_location", VStr (end_location s));
         ("travel_time", VFloat (travel_time s));
         ("route_distance", VFloat (route_distance s));
         ("emissions", VFloat (emissions s));
         ("route_map", VStr (route_map s))].

(** Lines 245-257, for the dict built at line 235. *)
Definition save_route (data : pyval) : M unit :=
  saved_routes <-
    try_except load_journal is_FileNotFoundError (fun _ => ret (VList [])) ;;
  saved_routes' <- lift (append saved_routes data) ;;
  dump_journal saved_routes' ;;
  st_success "Route details saved successfully!".

(** What a [for] loop draws from a value. *)
Definition iterate (v : pyval) : result (list pyval) :=
  match v with
  | VList items => Ok items
  | VDict items => Ok (map (fun kv => VStr (fst kv)) items)
  | VStr s => Ok (map (fun c => VStr (String c EmptyString)) (list_ascii_of_string s))
  | _ => Raise TypeError
  end.

(** Lines 291-299: the body of the loop. *)
Definition show_route (idx : nat) (route : pyval) : M unit :=
  st_write ("Route " ++ decimal (idx + 1) ++ ":") ;;
  city <- lift (Py.getitem route "weather_city") ;;
  st_write ("Weather City: " ++ fmt city) ;;
  origin <- lift (Py.getitem route "start_location") ;;
  st_write ("Start Location: " ++ fmt origin) ;;
  destination <- lift (Py.getitem route "end_location") ;;
  st_write ("End Location: " ++ fmt destination) ;;
  minutes <- lift (Py.getitem route "travel_time") ;;
  minutes' <- lift (format_2f minutes) ;;
  st_write ("Travel Time: " ++ minutes' ++ " minutes") ;;
  km <- lift (Py.getitem route "route_distance") ;;
  km' <- lift (format_2f km) ;;
  st_write ("Route Distance: " ++ km' ++ " km") ;;
  kg <- lift (Py.getitem route "emissions") ;;
  kg' <- lift (format_2f kg) ;;
  st_write ("Emissions: " ++ kg' ++ " kg CO2") ;;
  st_write "---".

Fixpoint show_routes (idx : nat) (routes : list pyval) : M unit :=
  match routes with
  | [] => ret tt
  | route :: rest => show_route idx route ;; show_routes (S idx) rest
  end.

(** Lines 283-301. *)
Definition saved_routes_page : M unit :=
  st_write "Saved Routes:" ;;
  try_except
    (saved_routes <- load_journal ;;
     routes <- lift (iterate saved_routes) ;;
     show_routes 0 routes)
    is_FileNotFoundError
    (fun _ => st_write "No saved routes found.").

End Fedpath.

(** ** Sample deployments, for running the model *)

Module Sample.

Definition class_name (e : exn) : string :=
  match e with
  | FileNotFoundError => "FileNotFoundError"
  | JSONDecodeError => "JSONDecodeError"
  | KeyError key => "KeyError: " ++ key
  | IndexError => "IndexError"
  | TypeError => "TypeError"
  | AttributeError => "AttributeError"
  | ValueError => "ValueError"
  | ZeroDivisionError => "ZeroDivisionError"
  | OverflowError => "OverflowError"
  | UnicodeDecodeError => "UnicodeDecodeError"
  | RecursionError => "RecursionError"
  | RequestException text => text
  | OperationalError => "OperationalError"
  | ProgrammingError => "ProgrammingError"
  | DataError => "DataError"
  | IntegrityError => "IntegrityError"
  end.

(** A collation that ignores the case of the letters A-Z and nothing
    else (trailing blanks count), on ASCII text. *)
Definition lower (c : ascii) : ascii :=
  let n := nat_of_ascii c in
  if Nat.leb 65 n && Nat.leb n 90 then ascii_of_nat (n + 32) else c.

Fixpoint fold_case (s : string) : string :=
  match s with
  | EmptyString => EmptyString
  | String c rest => String (lower c) (fold_case rest)
  end.

Definition ignore_case (a b : string) : bool :=
  String.eqb (fold_case a) (fold_case b).

Fixpoint blank (s : string) : bool :=
  match s with
  | EmptyString => true
  | String c rest => Ascii.eqb c " " && blank rest
  end.

(** A column of ASCII text: a value that is too long only by trailing
    blanks is stored without them, any other is refused. *)
Definition cut_blanks (n : nat) (s : string) : option string :=
  if blank (substring n (String.length s - n) s)
  then Some (substring 0 n s)
  else None.

Definition P : platform := {|
  TOMTOM_API_KEY := "tomtom-key";
  AQICN_API_KEY := "aqicn-key";
  repr := fun _ => "<object>";
  exn_text := class_name;
  fixed2 := fun _ => "<0.00>";
  counter_after_reject := Z.succ;
  collate := ignore_case;
  overflow := cut_blanks
|}.

Definition offline (url : string) : http_outcome := NetFail "connection refused".

Definition serving (body : pyval) (url : string) : http_outcome := Body body.

Definition asha : user_row := {|
  id := 1;
  first_name := "Asha";
  last_name := "Rao";
  username := "asha";
  password := SHA256.hexdigest "hunter2";
  mobile_number := "9000000001";
  vehicle_number := "KA01AB1234";
  vehicle_type := "BS-6"
|}.

Definition one_user : database :=
  {| reachable := true; users := Some [asha]; auto_increment := 2 |}.

Definition empty_table : database :=
  {| reachable := true; users := Some []; auto_increment := 1 |}.

Definition nowhere : database :=
  {| reachable := false; users := None; auto_increment := 1 |}.

Definition start (n : string -> http_outcome) (d : database)
    (j : option file_body) : world :=
  {| ui := []; net := n; db := d; journal := j |}.

Definition unknown_station : pyval :=
  VDict [("status", VStr "error"); ("data", VStr "Unknown station")].

Definition bengaluru : pyval :=
  VDict [("results",
          VList [VDict [("position",
                         VDict [("lat", VFloat 12.97); ("lon", VFloat 77.59)])]])].

Definition no_results : pyval := VDict [("results", VList [])].

Definition points : pyval :=
  VList [VDict [("latitude", VFloat 12.97); ("longitude", VFloat 77.59)];
         VDict [("latitude", VFloat 13.08); ("longitude", VFloat 77.58)]].

Definition one_route : pyval :=
  VDict [("routes",
          VList [VDict [("summary",
                         VDict [("lengthInMeters", VInt 12500);
                                ("travelTimeInSeconds", VInt 1500)]);
                        ("legs", VList [VDict [("points", points)]])]])].

Definition empty_routes : pyval := VDict [("routes", VList [])].

Definition no_route_found : pyval :=
  VDict [("detailedError", VDict [("code", VStr "NO_ROUTE_FOUND")])].

Definition commute : summary := {|
  weather_city := "Bengaluru";
  start_location := "Indiranagar";
  end_location := "Whitefield";
  travel_time := 25;
  route_distance := 12.5;
  emissions := 1.925;
  route_map := "<div>map 1</div>"
|}.

Definition airport : summary := {|
  weather_city := "Bengaluru";
  start_location := "Whitefield";
  end_location := "Airport";
  travel_time := 62.5;
  route_distance := 41;
  emissions := 0;
  route_map := "<div>map 2</div>"
|}.

(** Coordinates of the two ends of [one_route]. *)
Definition here : pyval * pyval := (VFloat 12.97, VFloat 77.59).
Definition there : pyval * pyval := (VFloat 13.08, VFloat 77.58).

(** The smallest positive double, 2^-1074. *)
Definition tiny : float := 0x1p-1074%float.

End Sample.

(** ** Vocabulary of the statements below *)

(** The query of [login_user] as a predicate on rows. *)
Definition matches (P : platform) (u digest : string) (r : user_row) : bool :=
  sql_eq P (username r) u && sql_eq P (password r) digest.

(** An answer of the air-quality API that line 94 rejects: the status is
    "error" (an unknown station answers so), or there is no [data]
    object. *)
Definition api_error (response : pyval) : Prop :=
  exists items,
    response = VDict items
    /\ (Py.lookup "status" items = Some (VStr "error")
        \/ match Py.lookup "data" items with
           | Some data => Py.is_dict data
           | None => false
           end = false).

(** What the else branch at line 100 reports. *)
Definition error_message (response : pyval) : pyval :=
  match Py.get response "data" (VStr "Unknown error") with
  | Ok v => v
  | Raise _ => VNone
  end.

(** The first route of a routing response, read as lines 129-132 read
    it. *)
Definition first_route (response seconds meters geometry : pyval) : Prop :=
  exists items route rest summary legs leg,
    response = VDict items
    /\ Py.lookup "routes" items = Some (VList (route :: rest))
    /\ Py.getitem route "summary" = Ok summary
    /\ Py.getitem summary "travelTimeInSeconds" = Ok seconds
    /\ Py.getitem summary "lengthInMeters" = Ok meters
    /\ Py.getitem route "legs" = Ok legs
    /\ Py.first legs = Ok leg
    /\ Py.getitem leg "points" = Ok geometry.

(** The emission factor as the float the product at line 142 uses. *)
Definition factor_of (vehicle : string) : float :=
  if String.eqb vehicle "Gasoline" then 2.31%float
  else if String.eqb vehicle "Diesel" then 2.68%float
  else 0%float.

(** Pressing Save Route once per summary, in order. *)
Fixpoint save_all (l : list summary) : M unit :=
  match l with
  | [] => ret tt
  | s :: rest => bind (save_route (saved_data s)) (fun _ => save_all rest)
  end.

(** The journal holds the sequence [l]: no file yet and nothing saved,
    or a file that decodes to the list [l]. *)
Definition holds (j : option file_body) (l : list pyval) : Prop :=
  (j = None /\ l = []) \/ j = Some (Parses (VList l)).

Definition saved_notice : ui_event :=
  StSuccess "Route details saved successfully!".

(** What the Saved Routes page writes for the summary at position
    [idx]. *)
Definition route_block (P : platform) (idx : nat) (s : summary) : list ui_event :=
  [StWrite ("Route " ++ decimal (idx + 1) ++ ":");
   StWrite ("Weather City: " ++ weather_city s);
   StWrite ("Start Location: " ++ start_location s);
   StWrite ("End Location: " ++ end_location s);
   StWrite ("Travel Time: " ++ fixed2 P (travel_time s) ++ " minutes");
   StWrite ("Route Distance: " ++ fixed2 P (route_distance s) ++ " km");
   StWrite ("Emissions: " ++ fixed2 P (emissions s) ++ " kg CO2");
   StWrite "---"].

Fixpoint route_blocks (P : platform) (idx : nat) (l : list summary) : list ui_event :=
  match l with
  | [] => []
  | s :: rest => (route_block P idx s ++ route_blocks P (S idx) rest)%list
  end.

(** Classes of a binary64 value, on its [spec_float] view. *)
Definition sf_zero (x : spec_float) : bool :=
  match x with
  | S754_zero _ => true
  | _ => false
  end.

Definition sf_finite (x : spec_float) : bool :=
  match x with
  | S754_zero _ | S754_finite _ _ _ => true
  | _ => false
  end.

(** Neither zero nor NaN: a divisor under which [0 / x] is a zero. *)
Definition sf_divisor (x : spec_float) : bool :=
  match x with
  | S754_finite _ _ _ | S754_infinity _ => true
  | _ => false
  end.

(** ** The pages' handlers (lines 161-186, 199-222 and 304-308) *)

(** [st.session_state]: the two keys the program sets, each absent until
    it is assigned. *)
Record session_state : Type := {
  logged_in : option bool;
  session_username : option string
}.

Section Handlers.

Variable P : platform.


(** Lines 182-186, in a run where the Signup button was pressed. *)
Definition signup_pressed (fn ln u pw mobile vnum vtype : string) : M unit :=
  ok <- signup_user P fn ln u pw mobile vnum vtype ;;
  if ok then st_success "Signup successful! You can now log in."
  else st_error "Signup failed. Try again.".

(** Line 305: whether [main] shows the login page. *)
Definition shows_login (s : session_state) : bool :=
  match logged_in s with
  | None => true
  | Some b => negb b
  end.

(** Lines 199-205. *)
Definition weather_section (weather_city : string) : M unit :=
  if Py.truthy (VStr weather_city) then
    reading <- get_weather_details P weather_city ;;
    let '(air_quality_index, weather_city_name) := reading in
    if negb (Py.is_str "N/A" air_quality_index) then
      st_write ("Air Quality Index for " ++ fmt P weather_city_name
                ++ ": " ++ fmt P air_quality_index)
    else
      st_write "Unable to fetch weather details. Please try another location."
  else ret tt.

(** Lines 213-222: the value is the route that the block at line 223
    goes on to show, [None] when one of the three guards skips it. *)
Definition route_lookup (start_location end_location vehicle : string)
    (fuel_efficiency : pyval) : M (option (pyval * pyval * pyval * pyval)) :=
  if Py.truthy (VStr start_location) && Py.truthy (VStr end_location) then
    start <- geocode_location P start_location ;;
    finish <- geocode_location P end_location ;;
    let '(start_lat, start_lon) := start in
    let '(end_lat, end_lon) := finish in
    if Py.truthy start_lat && Py.truthy end_lat then
      details <- get_route_details P start_lat start_lon end_lat end_lon
                   vehicle fuel_efficiency ;;
      let '(travel_time, route_distance, emissions, geometry) := details in
      if Py.truthy travel_time && Py.truthy route_distance
      then ret (Some details)
      else ret None
    else ret None
  else ret None.

End Handlers.

(** One use of the credential store. *)
Inductive store_call : Type :=
| CreateTable
| Signup (fn ln u pw mobile vnum vtype : string)
| Login (u pw : string).

Definition run_call (P : platform) (c : store_call) (w : world) : world :=
  match c with
  | CreateTable => snd (create_user_table w)
  | Signup fn ln u pw mobile vnum vtype =>
      snd (signup_user P fn ln u pw mobile vnum vtype w)
  | Login u pw => snd (login_user P u pw w)
  end.

Definition run_calls (P : platform) (calls : list store_call) (w : world) : world :=
  fold_left (fun w c => run_call P c w) calls w.

(** The usernames in [users], in row order. *)
Definition usernames (d : database) : list string :=
  match users d with
  | Some rows => map username rows
  | None => []
  end.

Definition hex_chars : list ascii := list_ascii_of_string "0123456789abcdef".

(** The columns other than [password] fit their [VARCHAR]s. *)
Definition fields_fit (fn ln u mobile vnum vtype : string) : bool :=
  fits 50 fn && fits 50 ln && fits 50 u && fits 15 mobile
  && fits 20 vnum && fits 50 vtype.

(** The row that [signup_user] hands to the INSERT. *)
Definition new_row (d : database) (fn ln u pw mobile vnum vtype : string) : user_row :=
  {| id := auto_increment d;
     first_name := fn; last_name := ln; username := u;
     password := hash_password pw; mobile_number := mobile;
     vehicle_number := vnum; vehicle_type := vtype |}.

(** The answer of the query of [login_user]. *)
Definition login_answer (P : platform) (d : database) (u pw : string) : bool :=
  reachable d
  && match users d with
     | Some rows => existsb (matches P u (hash_password pw)) rows
     | None => false
     end.

(** The collation tells apart the strings over [0-9a-f], as every
    collation of the server does: different digests stay different. *)
Definition tells_digests_apart (P : platform) : Prop :=
  forall a b,
    Forall (fun c => In c hex_chars) (list_ascii_of_string a) ->
    Forall (fun c => In c hex_chars) (list_ascii_of_string b) ->
    collate P a b = true ->
    a = b.

(** The name the air-quality client reads off a [data] object. *)
Definition station_name (data : list (string * pyval)) : pyval :=
  match Py.lookup "city" data with
  | Some (VDict info) =>
      match Py.lookup "name" info with
      | Some name => name
      | None => VStr "Unknown"
      end
  | _ => VStr "Unknown"
  end.

Definition unavailable : ui_event :=
  StWrite "Unable to fetch weather details. Please try another location.".

(** The first geocoding result of a response carries this position. *)
Definition first_position (response lat lon : pyval) : Prop :=
  exists items best rest position,
    response = VDict items
    /\ Py.lookup "results" items = Some (VList (best :: rest))
    /\ Py.getitem best "position" = Ok position
    /\ Py.getitem position "lat" = Ok lat
    /\ Py.getitem position "lon" = Ok lon.

(** The values the fuel-efficiency slider can take (line 211). *)
Definition slider_values : list Z := map Z.of_nat (seq 1 30).

(** A computation that only adds to the page: it leaves the network,
    the table and the journal as they are, whether it returns or
    raises. *)
Definition only_shows {A} (c : M A) : Prop :=
  forall w,
    net (snd (c w)) = net w
    /\ db (snd (c w)) = db w
    /\ journal (snd (c w)) = journal w
    /\ exists shown, ui (snd (c w)) = (ui w ++ shown)%list.

(** ** Further sample data *)

Module Scene.

(** A place on the equator. *)
Definition equator : pyval :=
  VDict [("results",
          VList [VDict [("position",
                         VDict [("lat", VFloat 0); ("lon", VFloat 32.58)])]])].

(** The TomTom endpoints: geocoding answers [Sample.bengaluru], routing
    answers [Sample.one_route]. *)
Definition tomtom (url : string) : http_outcome :=
  if String.prefix "https://api.tomtom.com/search/" url
  then Body Sample.bengaluru
  else Body Sample.one_route.

Definition delhi : list (string * pyval) :=
  [("aqi", VInt 152); ("city", VDict [("name", VStr "Delhi, India")])].

Definition delhi_reading : pyval :=
  VDict [("status", VStr "ok"); ("data", VDict delhi)].

Definition fresh_server : database :=
  {| reachable := true; users := None; auto_increment := 1 |}.

End Scene.

(** * Properties *)

(** ** Facts about binary64 used below *)

Module FloatFacts.

Lemma Prim2SF_zero : Prim2SF 0%float = S754_zero false.
Proof. reflexivity. Qed.

Lemma eqb_zero (x : float) : (x =? 0)%float = sf_zero (Prim2SF x).
Proof.
  rewrite eqb_spec, Prim2SF_zero.
  destruct (Prim2SF x) as [s | s | | s m e]; try destruct s; reflexivity.
Qed.

Lemma is_finite_sf (x : float) : is_finite x = sf_finite (Prim2SF x).
Proof.
  unfold is_finite, is_nan, is_infinity.
  rewrite !eqb_spec, abs_spec.
  change (Prim2SF infinity) with (S754_infinity false).
  destruct (Prim2SF x) as [s | s | | s m e]; cbn; try reflexivity.
  - destruct s; reflexivity.
  - rewrite Z.compare_refl.
    change (PosDef.Pos.compare_cont Eq m m) with (Pos.compare m m).
    rewrite Pos.compare_refl. destruct s; reflexivity.
Qed.

Lemma ltb_zero (x : float) :
  (0 <? x)%float = true -> sf_divisor (Prim2SF x) = true.
Proof.
  rewrite ltb_spec, Prim2SF_zero.
  destruct (Prim2SF x) as [s | s | | s m e]; cbn; congruence.
Qed.

Lemma finite_nonzero_divisor (x : float) :
  is_finite x = true -> (x =? 0)%float = false -> sf_divisor (Prim2SF x) = true.
Proof.
  rewrite is_finite_sf, eqb_zero.
  destruct (Prim2SF x); cbn; congruence.
Qed.

(** [q * 0.0] is a zero for every finite [q]. *)
Lemma mul_zero_r (q : float) :
  is_finite q = true -> (q * 0 =? 0)%float = true.
Proof.
  rewrite is_finite_sf, eqb_zero, mul_spec, Prim2SF_zero.
  destruct (Prim2SF q); cbn; congruence.
Qed.

(** [0 / e] is a zero for every divisor that is neither zero nor NaN. *)
Lemma div_zero_l (d e : float) :
  (d =? 0)%float = true -> sf_divisor (Prim2SF e) = true ->
  sf_zero (Prim2SF (d / e)) = true.
Proof.
  rewrite eqb_zero, div_spec.
  destruct (Prim2SF d); cbn; try congruence.
  destruct (Prim2SF e); cbn; congruence.
Qed.

(** A zero times a finite factor is a zero. *)
Lemma mul_zero_l (z k : float) :
  sf_zero (Prim2SF z) = true -> is_finite k = true -> (z * k =? 0)%float = true.
Proof.
  rewrite is_finite_sf, eqb_zero, mul_spec.
  destruct (Prim2SF z); cbn; try congruence.
  destruct (Prim2SF k); cbn; congruence.
Qed.

End FloatFacts.

(** ** Facts about the digest *)

Lemma string_length_app (s t : string) :
  String.length (s ++ t) = (String.length s + String.length t)%nat.
Proof. induction s as [| c s IH]; cbn; [reflexivity | now rewrite IH]. Qed.

Lemma list_ascii_app (s t : string) :
  list_ascii_of_string (s ++ t)
  = (list_ascii_of_string s ++ list_ascii_of_string t)%list.
Proof. induction s as [| c s IH]; cbn; [reflexivity | now rewrite IH]. Qed.

Lemma hex_digit_in (n : Z) : In (SHA256.hex_digit n) hex_chars.
Proof.
  unfold SHA256.hex_digit. fold hex_chars.
  destruct (Nat.lt_ge_cases (Z.to_nat n) (List.length hex_chars)) as [Hlt | Hge].
  - now apply nth_In.
  - rewrite nth_overflow by exact Hge. cbn. now left.
Qed.

Lemma hex_word_shape (x : Z) :
  String.length (SHA256.hex_word x) = 8%nat
  /\ Forall (fun c => In c hex_chars) (list_ascii_of_string (SHA256.hex_word x)).
Proof.
  unfold SHA256.hex_word. cbn [map string_of_list_ascii String.length list_ascii_of_string].
  split; [reflexivity |].
  repeat (apply Forall_cons; [apply hex_digit_in |]). apply Forall_nil.
Qed.

Lemma hash_password_length (pw : string) :
  String.length (hash_password pw) = 64%nat.
Proof.
  unfold hash_password, SHA256.hexdigest.
  destruct (SHA256.digest (SHA256.bytes_of_string pw))
    as [[[[[[[a b] c] d] e] f] g] h].
  rewrite !string_length_app. now rewrite !(proj1 (hex_word_shape _)).
Qed.

Lemma hash_password_hex (pw : string) :
  Forall (fun c => In c hex_chars) (list_ascii_of_string (hash_password pw)).
Proof.
  unfold hash_password, SHA256.hexdigest.
  destruct (SHA256.digest (SHA256.bytes_of_string pw))
    as [[[[[[[a b] c] d] e] f] g] h].
  rewrite !list_ascii_app.
  repeat (apply Forall_app; split); apply hex_word_shape.
Qed.

(** ** Credential store *)

Section CredentialStore.

Variable P : platform.

#[local] Opaque hash_password.

Lemma sql_eq_refl (a : string) : sql_eq P a a = true.
Proof. unfold sql_eq. now rewrite String.eqb_refl. Qed.

Lemma varchar_fits (n : nat) (s : string) :
  fits n s = true -> varchar P n s = Some s.
Proof. unfold varchar. now intros ->. Qed.

Lemma varchar_digest (pw : string) :
  varchar P 255 (hash_password pw) = Some (hash_password pw).
Proof.
  apply varchar_fits. unfold fits. now rewrite hash_password_length.
Qed.

(** What the columns keep of a row: its id, the digest as it is, and of
    the name what the name column keeps. *)
Lemma store_kept (r kept : user_row) :
  store P r = Some kept ->
  id kept = id r
  /\ varchar P 50 (username r) = Some (username kept)
  /\ varchar P 255 (password r) = Some (password kept).
Proof.
  unfold store.
  destruct (varchar P 50 (first_name r)); [| discriminate].
  destruct (varchar P 50 (last_name r)); [| discriminate].
  destruct (varchar P 50 (username r)); [| discriminate].
  destruct (varchar P 255 (password r)); [| discriminate].
  destruct (varchar P 15 (mobile_number r)); [| discriminate].
  destruct (varchar P 20 (vehicle_number r)); [| discriminate].
  destruct (varchar P 50 (vehicle_type r)); [| discriminate].
  intros H. inversion H. repeat split.
Qed.

(** Fields of at most as many bytes as their columns are wide are kept
    as they are. *)
Lemma store_fitting (d : database) (fn ln u pw mobile vnum vtype : string) :
  fields_fit fn ln u mobile vnum vtype = true ->
  store P (new_row d fn ln u pw mobile vnum vtype)
  = Some (new_row d fn ln u pw mobile vnum vtype).
Proof.
  unfold fields_fit. intros H.
  repeat (apply andb_prop in H; destruct H as [H ?]).
  unfold store, new_row.
  cbn [id first_name last_name username password mobile_number vehicle_number vehicle_type].
  rewrite varchar_digest, !varchar_fits by assumption. reflexivity.
Qed.

Lemma username_taken_false (typed kept : string) (rows : list user_row) :
  username_taken P typed kept rows = false ->
  forall r, In r rows -> username r <> typed /\ sql_eq P (username r) kept = false.
Proof.
  unfold username_taken. intros H r Hin.
  assert (Hr : String.eqb (username r) typed || sql_eq P (username r) kept = false).
  { destruct (String.eqb (username r) typed || sql_eq P (username r) kept) eqn:E; trivial.
    assert (Ht : existsb (fun r => String.eqb (username r) typed
                                   || sql_eq P (username r) kept) rows = true).
    { apply existsb_exists. now exists r. }
    congruence. }
  apply orb_false_iff in Hr. destruct Hr as [Hne Hno].
  split; [now apply String.eqb_neq | exact Hno].
Qed.

Lemma username_taken_typed (typed kept : string) (rows : list user_row) (r : user_row) :
  In r rows -> username r = typed -> username_taken P typed kept rows = true.
Proof.
  intros Hin Hu. unfold username_taken. apply existsb_exists. exists r.
  split; [exact Hin |]. subst typed. now rewrite String.eqb_refl.
Qed.

(** Every run of [signup_user] is one of two: the server takes the row,
    or the failure is reported and the rows stay. *)
Lemma signup_user_cases (w : world) (fn ln u pw mobile vnum vtype : string) :
  let d := db w in
  (exists rows kept,
      reachable d = true
      /\ users d = Some rows
      /\ store P (new_row d fn ln u pw mobile vnum vtype) = Some kept
      /\ username_taken P u (username kept) rows = false
      /\ (int_max <? auto_increment d) = false
      /\ signup_user P fn ln u pw mobile vnum vtype w
         = (Ok true,
            with_db w {| reachable := true;
                         users := Some (rows ++ [kept])%list;
                         auto_increment := auto_increment d + 1 |}))
  \/ (exists e counter,
         signup_user P fn ln u pw mobile vnum vtype w
         = (Ok false,
            with_ui (with_db w {| reachable := reachable d;
                                  users := users d;
                                  auto_increment := counter |})
                    (ui w ++ [StError ("Signup failed: " ++ exn_text P e)])%list)
         /\ (reachable d = false
             \/ users d = None
             \/ store P (new_row d fn ln u pw mobile vnum vtype) = None
             \/ (exists rows kept,
                    users d = Some rows
                    /\ store P (new_row d fn ln u pw mobile vnum vtype) = Some kept
                    /\ username_taken P u (username kept) rows = true)
             \/ (int_max <? auto_increment d) = true)).
Proof.
  cbv zeta. destruct w as [u0 n0 [up tab counter] j0].
  destruct up; [destruct tab as [rows |] |];
    unfold signup_user, try_except, bind, connect, execute_insert, commit,
      reject, st_error, emit, ret, any_Exception, with_ui, with_db;
    cbn [db reachable users auto_increment ui net journal].
  - match goal with
    | |- context [store P ?r] =>
        change r with (new_row {| reachable := true; users := Some rows;
                                  auto_increment := counter |}
                         fn ln u pw mobile vnum vtype)
    end.
    destruct (store P _) as [kept |] eqn:Hstore.
    + destruct (store_kept _ _ Hstore) as [Hid _].
      cbn [new_row id auto_increment] in Hid. rewrite Hid.
      destruct (username_taken P u (username kept) rows) eqn:Htaken.
      * right. exists IntegrityError, (counter_after_reject P counter).
        split; [reflexivity |]. do 3 right. left. now exists rows, kept.
      * destruct (int_max <? counter) eqn:Hrange.
        -- right. exists IntegrityError, (counter_after_reject P counter).
           split; [reflexivity |]. now do 4 right.
        -- left. exists rows, kept. repeat split; trivial.
    + right. exists DataError, (counter_after_reject P counter).
      split; [reflexivity |]. do 2 right. now left.
  - right. exists ProgrammingError, counter.
    split; [reflexivity |]. right. now left.
  - right. exists OperationalError, counter.
    split; [reflexivity |]. now left.
Qed.

(** [login_user] asks and reports; it changes neither table nor file. *)
Lemma login_user_cases (w : world) (u pw : string) :
  (login_user P u pw w = (Ok (login_answer P (db w) u pw), w))
  \/ (login_answer P (db w) u pw = false
      /\ exists e,
          login_user P u pw w
          = (Ok false, with_ui w (ui w ++ [StError ("Login failed: " ++ exn_text P e)])%list)
          /\ (reachable (db w) = false \/ users (db w) = None)).
Proof.
  destruct w as [u0 n0 [up tab counter] j0].
  destruct up; [destruct tab as [rows |] |];
    unfold login_answer, login_user, try_except, bind, connect, execute_select,
      st_error, emit, ret, any_Exception, with_ui;
    cbn [andb db reachable users auto_increment ui net journal].
  - left. fold (matches P u (hash_password pw)).
    assert (E : match find (matches P u (hash_password pw)) rows with
                | Some _ => true
                | None => false
                end = existsb (matches P u (hash_password pw)) rows).
    { induction rows as [| r rows IH]; [reflexivity |].
      cbn [find existsb].
      destruct (matches P u (hash_password pw) r); [reflexivity | exact IH]. }
    rewrite E. reflexivity.
  - right. split; [reflexivity |]. exists ProgrammingError.
    split; [reflexivity | now right].
  - right. split; [reflexivity |]. exists OperationalError.
    split; [reflexivity | now left].
Qed.

Lemma login_answer_iff (d : database) (u pw : string) (rows : list user_row) :
  reachable d = true ->
  users d = Some rows ->
  (login_answer P d u pw = true
   <-> exists r,
         In r rows
         /\ sql_eq P (username r) u = true
         /\ sql_eq P (password r) (hash_password pw) = true).
Proof.
  intros Hup Htab. unfold login_answer. rewrite Hup, Htab. cbn [andb].
  rewrite existsb_exists. unfold matches.
  split; intros [r [Hin H]]; exists r; split; trivial.
  - now apply andb_prop in H.
  - destruct H as [Hu Hp]. now rewrite Hu, Hp.
Qed.

(** After an accepted [signup_user] under a name of at most 50 bytes,
    the name selects the new row and no other. *)
Lemma login_after_signup (w w' : world) (fn ln u pw mobile vnum vtype pw' : string) :
  fits 50 u = true ->
  signup_user P fn ln u pw mobile vnum vtype w = (Ok true, w') ->
  login_answer P (db w') u pw' = sql_eq P (hash_password pw) (hash_password pw').
Proof.
  intros Hfit Hsign.
  destruct (signup_user_cases w fn ln u pw mobile vnum vtype)
    as [(rows & kept & Hup & Htab & Hstore & Hfree & _ & E) | (e & counter & E & _)];
    rewrite E in Hsign; [| discriminate Hsign].
  inversion Hsign. subst w'. clear Hsign E.
  destruct (store_kept _ _ Hstore) as (_ & Hname & Hpw).
  cbn [new_row username password] in Hname, Hpw.
  rewrite (varchar_fits 50 u Hfit) in Hname. inversion Hname as [Hu].
  rewrite varchar_digest in Hpw. inversion Hpw as [Hd].
  unfold login_answer. cbn [db with_db reachable users andb].
  rewrite existsb_app. cbn [existsb].
  assert (Hold : existsb (matches P u (hash_password pw')) rows = false).
  { destruct (existsb (matches P u (hash_password pw')) rows) eqn:Ex; trivial.
    apply existsb_exists in Ex. destruct Ex as [r [Hin Hm]].
    unfold matches in Hm. apply andb_prop in Hm. destruct Hm as [Hm _].
    destruct (username_taken_false _ _ _ Hfree r Hin) as [_ Hno].
    rewrite <- Hu in Hno. congruence. }
  rewrite Hu in Hold. rewrite Hold. unfold matches. rewrite <- Hd, sql_eq_refl.
  cbn [orb andb]. now rewrite orb_false_r.
Qed.

(** C3 (as amended).  With the server reachable and the table in place,
    [login_user u pw] returns true exactly when [users] holds a row
    whose username and stored digest equal [u] and the hash of [pw] in
    the comparison of the columns' collation; hence after a successful
    [signup_user] with [(u, pw)], [u] of at most 50 bytes, the login
    with [(u, pw)] succeeds, and the login with [(u, pw')] fails for
    every [pw'] whose hash differs. *)
Theorem login_user_correct (w : world) (u pw : string) (rows : list user_row) :
  reachable (db w) = true ->
  users (db w) = Some rows ->
  (exists b,
      login_user P u pw w = (Ok b, w)
      /\ (b = true <->
          exists r,
            In r rows
            /\ sql_eq P (username r) u = true
            /\ sql_eq P (password r) (hash_password pw) = true))
  /\ (fits 50 u = true ->
      tells_digests_apart P ->
      forall fn ln mobile vnum vtype w',
        signup_user P fn ln u pw mobile vnum vtype w = (Ok true, w') ->
        login_user P u pw w' = (Ok true, w')
        /\ forall pw',
            hash_password pw' <> hash_password pw ->
            login_user P u pw' w' = (Ok false, w')).
Proof.
  intros Hup Htab. split.
  - exists (login_answer P (db w) u pw). split.
    + destruct (login_user_cases w u pw) as [E | (_ & e & _ & [Hdown | Hnone])];
        [exact E | congruence | congruence].
    + now apply login_answer_iff.
  - intros Hfit Hapart fn ln mobile vnum vtype w' Hsign.
    assert (Hw' : reachable (db w') = true /\ users (db w') <> None).
    { destruct (signup_user_cases w fn ln u pw mobile vnum vtype)
        as [(rows0 & kept & _ & _ & _ & _ & _ & E) | (e & counter & E & _)];
        rewrite E in Hsign; [| discriminate Hsign].
      inversion Hsign. cbn. split; [reflexivity | discriminate]. }
    destruct Hw' as [Hup' Htab'].
    assert (Hrun : forall pw0,
               login_user P u pw0 w'
               = (Ok (sql_eq P (hash_password pw) (hash_password pw0)), w')).
    { intros pw0.
      rewrite <- (login_after_signup w w' fn ln u pw mobile vnum vtype pw0 Hfit Hsign).
      destruct (login_user_cases w' u pw0) as [E | (_ & e & _ & [Hdown | Hnone])];
        [exact E | congruence | congruence]. }
    split.
    + now rewrite Hrun, sql_eq_refl.
    + intros pw0 Hdiff. rewrite Hrun. f_equal. f_equal.
      unfold sql_eq. apply orb_false_iff. split.
      * apply String.eqb_neq. congruence.
      * destruct (collate P (hash_password pw) (hash_password pw0)) eqn:Hc; trivial.
        exfalso. apply Hdiff. symmetry.
        apply Hapart; trivial; apply hash_password_hex.
Qed.

(** C6. A [signup_user] whose username is already in [users] reports
    "Signup failed: ..." on the page, returns false instead of raising,
    and leaves the rows of [users] as they were. *)
Theorem signup_user_duplicate (w : world) (fn ln u pw mobile vnum vtype : string)
    (rows : list user_row) :
  users (db w) = Some rows ->
  (exists r, In r rows /\ username r = u) ->
  exists e w',
    signup_user P fn ln u pw mobile vnum vtype w = (Ok false, w')
    /\ ui w' = (ui w ++ [StError ("Signup failed: " ++ exn_text P e)])%list
    /\ users (db w') = Some rows
    /\ reachable (db w') = reachable (db w)
    /\ journal w' = journal w.
Proof.
  intros Htab [r [Hin Hu]].
  destruct (signup_user_cases w fn ln u pw mobile vnum vtype)
    as [(rows0 & kept & _ & Htab0 & _ & Hfree & _ & _) | (e & counter & E & _)].
  - exfalso. rewrite Htab in Htab0. inversion Htab0. subst rows0.
    rewrite (username_taken_typed u (username kept) rows r Hin Hu) in Hfree.
    discriminate Hfree.
  - exists e. eexists. split; [exact E |]. cbn. rewrite Htab. repeat split.
Qed.

(** C8. [hash_password] is a function of the password alone: equal
    passwords have equal digests. *)
Theorem hash_password_deterministic (p1 p2 : string) :
  p1 = p2 -> hash_password p1 = hash_password p2.
Proof. intros E. now rewrite E. Qed.

End CredentialStore.

(** ** Air-quality client *)

Section Clients.

Variable P : platform.

(** A network failure: the handler at lines 103-105 answers. *)
Lemma get_weather_details_netfail (w : world) (city text : string) :
  city <> "" ->
  net w (weather_url P city) = NetFail text ->
  get_weather_details P city w
  = (Ok (VStr "N/A", VStr "Error fetching data"),
     with_ui w (ui w ++ [StError ("Error fetching data: "
                                  ++ exn_text P (RequestException text))])%list).
Proof.
  intros Hcity Hnet.
  unfold get_weather_details. cbn [Py.truthy].
  destruct (String.eqb_spec city "") as [E | _]; [contradiction |].
  cbn [negb]. unfold try_except, bind, requests_get_json.
  rewrite Hnet. reflexivity.
Qed.

(** An API error: the else branch at lines 99-102 answers. *)
Lemma get_weather_details_api_error (w : world) (city : string) (response : pyval) :
  city <> "" ->
  net w (weather_url P city) = Body response ->
  api_error response ->
  get_weather_details P city w
  = (Ok (VStr "N/A", VStr "City not found"),
     with_ui w (ui w ++ [StError ("Error fetching weather data: "
                                  ++ fmt P (error_message response))])%list).
Proof.
  intros Hcity Hnet (items & -> & Hbad).
  unfold get_weather_details. cbn [Py.truthy].
  destruct (String.eqb_spec city "") as [E | _]; [contradiction |].
  cbn [negb]. unfold try_except, bind, requests_get_json.
  rewrite Hnet. unfold lift, error_message, Py.get, ret, st_error, emit.
  destruct Hbad as [Hstatus | Hdata].
  - rewrite Hstatus. cbn.
    destruct (Py.lookup "data" items); reflexivity.
  - destruct (Py.lookup "status" items) as [status |];
      [destruct (negb (Py.is_str "error" status)) |];
      cbn;
      destruct (Py.lookup "data" items) as [data |];
      cbn in *; try rewrite Hdata; reflexivity.
Qed.

(** C4 (as amended).  For a non-empty city, a network failure and an API
    error both yield "N/A" as the index component and both report an
    error on the page, but the city-name component is "Error fetching
    data" for the former and "City not found" for the latter. *)
Theorem get_weather_details_failures (w1 w2 : world) (city text : string)
    (response : pyval) :
  city <> "" ->
  net w1 (weather_url P city) = NetFail text ->
  net w2 (weather_url P city) = Body response ->
  api_error response ->
  get_weather_details P city w1
  = (Ok (VStr "N/A", VStr "Error fetching data"),
     with_ui w1 (ui w1 ++ [StError ("Error fetching data: "
                                    ++ exn_text P (RequestException text))])%list)
  /\ get_weather_details P city w2
     = (Ok (VStr "N/A", VStr "City not found"),
        with_ui w2 (ui w2 ++ [StError ("Error fetching weather data: "
                                       ++ fmt P (error_message response))])%list).
Proof.
  intros Hcity Hfail Hbody Herr. split.
  - now apply get_weather_details_netfail.
  - now apply get_weather_details_api_error.
Qed.

(** ** Geocoding *)

(** C7. When the geocoding response has no match (its "results" entry
    is missing or empty), [geocode_location] reports "Unable to geocode
    location: ..." and returns [(None, None)]; when it has at least one
    result, [geocode_location] returns the latitude and longitude of the
    first one. *)
Theorem geocode_location_result (w : world) (location : string) (response : pyval) :
  net w (geocode_url P location) = Body response ->
  (forall results,
      Py.get response "results" VNone = Ok results ->
      Py.truthy results = false ->
      geocode_location P location w
      = (Ok (VNone, VNone),
         with_ui w (ui w ++ [StError ("Unable to geocode location: " ++ location)])%list))
  /\ (forall items best rest position lat lon,
        response = VDict items ->
        Py.lookup "results" items = Some (VList (best :: rest)) ->
        Py.getitem best "position" = Ok position ->
        Py.getitem position "lat" = Ok lat ->
        Py.getitem position "lon" = Ok lon ->
        geocode_location P location w = (Ok (lat, lon), w)).
Proof.
  intros Hnet. split.
  - intros results Hget Hfalsy.
    unfold geocode_location, bind, requests_get_json, lift.
    rewrite Hnet, Hget, Hfalsy. reflexivity.
  - intros items best rest position lat lon -> Hres Hpos Hlat Hlon.
    unfold geocode_location, bind, requests_get_json, lift.
    rewrite Hnet. unfold Py.get, Py.getitem at 1. rewrite Hres.
    cbn [Py.truthy Py.first]. rewrite Hpos, Hlat, Hlon. reflexivity.
Qed.

(** ** Routing *)

(** A response without a "routes" key: the else branch at lines 144-146
    answers. *)
Lemma get_route_details_no_routes_key (w : world)
    (start_lat start_lon end_lat end_lon : pyval) (vehicle : string)
    (fuel_efficiency : pyval) (items : list (string * pyval)) :
  net w (route_url P start_lat start_lon end_lat end_lon) = Body (VDict items) ->
  Py.lookup "routes" items = None ->
  get_route_details P start_lat start_lon end_lat end_lon vehicle fuel_efficiency w
  = (Ok absent_route,
     with_ui w (ui w ++ [StError "Unable to calculate route. Check your locations!"])%list).
Proof.
  intros Hnet Hkey.
  unfold get_route_details, bind, requests_get_json, lift.
  rewrite Hnet. unfold Py.contains. rewrite Hkey. reflexivity.
Qed.

(** A response whose "routes" list is empty: line 129 raises. *)
Lemma get_route_details_no_route_in_list (w : world)
    (start_lat start_lon end_lat end_lon : pyval) (vehicle : string)
    (fuel_efficiency : pyval) (items : list (string * pyval)) :
  net w (route_url P start_lat start_lon end_lat end_lon) = Body (VDict items) ->
  Py.lookup "routes" items = Some (VList []) ->
  get_route_details P start_lat start_lon end_lat end_lon vehicle fuel_efficiency w
  = (Raise IndexError, w).
Proof.
  intros Hnet Hkey.
  unfold get_route_details, bind, requests_get_json, lift.
  rewrite Hnet. unfold Py.contains, Py.getitem. rewrite Hkey. reflexivity.
Qed.

(** With a well-formed first route, [get_route_details] returns the
    converted time and distance, the estimate and the geometry, and
    touches nothing. *)
Lemma get_route_details_runs (w : world)
    (start_lat start_lon end_lat end_lon : pyval) (vehicle : string)
    (fuel_efficiency response seconds meters geometry : pyval) (t d z : float) :
  net w (route_url P start_lat start_lon end_lat end_lon) = Body response ->
  first_route response seconds meters geometry ->
  PyNum.truediv seconds (VInt 60) = Ok t ->
  PyNum.truediv meters (VInt 1000) = Ok d ->
  estimate_emissions vehicle d fuel_efficiency = Ok z ->
  get_route_details P start_lat start_lon end_lat end_lon vehicle fuel_efficiency w
  = (Ok (VFloat t, VFloat d, VFloat z, geometry), w).
Proof.
  intros Hnet (items & route & rest & summary & legs & leg
               & -> & Hroutes & Hsum & Hsec & Hlen & Hlegs & Hleg & Hgeo) Ht Hd Hz.
  unfold get_route_details, bind, requests_get_json, lift.
  rewrite Hnet. unfold Py.contains, Py.getitem at 1. rewrite Hroutes.
  cbn [Py.first]. rewrite Hsum, Hsec, Ht, Hlen, Hd, Hlegs, Hleg, Hgeo, Hz.
  reflexivity.
Qed.

End Clients.

(** ** Emission estimate *)

Section Emissions.

Variable P : platform.

Lemma float_of_int_0 : PyNum.float_of_int 0 = Ok 0%float.
Proof. vm_compute. reflexivity. Qed.

Lemma float_of_int_finite (z : Z) (f : float) :
  PyNum.float_of_int z = Ok f -> is_finite f = true.
Proof.
  unfold PyNum.float_of_int.
  destruct (is_finite (SF2Prim (binary_normalize prec emax z 0 false))) eqn:E;
    intros H; inversion H; subst; exact E.
Qed.

Lemma float_div_ok (a b q : float) :
  PyNum.float_div a b = Ok q -> (b =? 0)%float = false /\ q = (a / b)%float.
Proof.
  unfold PyNum.float_div.
  destruct (b =? 0)%float; intros H; inversion H; auto.
Qed.

(** A positive divisor is neither zero nor NaN once it is a float. *)
Lemma truediv_float_divisor (d q : float) (e : pyval) :
  PyNum.truediv (VFloat d) e = Ok q ->
  PyNum.positive e = true ->
  exists e', q = (d / e')%float /\ sf_divisor (Prim2SF e') = true.
Proof.
  unfold PyNum.truediv, PyNum.positive.
  destruct (PyNum.as_num e) as [[z | f] |]; cbn [PyNum.as_num PyNum.to_float];
    try discriminate.
  - destruct (PyNum.float_of_int z) as [e' | x] eqn:E; [| discriminate].
    intros Hq _. apply float_div_ok in Hq. destruct Hq as [Hnz ->].
    exists e'. split; trivial.
    apply FloatFacts.finite_nonzero_divisor; trivial.
    exact (float_of_int_finite z e' E).
  - intros Hq Hpos. apply float_div_ok in Hq. destruct Hq as [_ ->].
    exists f. split; trivial. now apply FloatFacts.ltb_zero.
Qed.

Lemma factor_of_finite (vehicle : string) : is_finite (factor_of vehicle) = true.
Proof.
  unfold factor_of.
  destruct (String.eqb vehicle "Gasoline"); [vm_compute; reflexivity |].
  destruct (String.eqb vehicle "Diesel"); vm_compute; reflexivity.
Qed.

(** Line 142 is the double-precision product of the quotient and the
    factor. *)
Lemma estimate_emissions_product (vehicle : string) (d q : float) (e : pyval) :
  PyNum.truediv (VFloat d) e = Ok q ->
  estimate_emissions vehicle d e = Ok (q * factor_of vehicle)%float.
Proof.
  intros Hq. unfold estimate_emissions, emission_factor, factor_of. rewrite Hq.
  destruct (String.eqb vehicle "Gasoline"); [reflexivity |].
  destruct (String.eqb vehicle "Diesel"); [reflexivity |].
  unfold PyNum.float_mul. cbn [PyNum.as_num PyNum.to_float].
  rewrite float_of_int_0. reflexivity.
Qed.

Lemma factor_of_other (vehicle : string) :
  vehicle <> "Gasoline" -> vehicle <> "Diesel" ->
  emission_factor vehicle = VInt 0 /\ factor_of vehicle = 0%float.
Proof.
  intros Hg Hd. unfold emission_factor, factor_of.
  destruct (String.eqb_spec vehicle "Gasoline"); [contradiction |].
  destruct (String.eqb_spec vehicle "Diesel"); [contradiction |].
  split; reflexivity.
Qed.

(** C1 (as amended).  For a route of [d] km and a fuel efficiency
    [e > 0] by which [d] can be divided, [get_route_details] returns as
    estimate the double-precision product [(d / e) * factor], with
    factor 2.31 for "Gasoline", 2.68 for "Diesel" and 0 for "Electric";
    the estimate is 0 for an electric vehicle whenever the quotient
    [d / e] is finite, and 0 whenever [d = 0]. *)
Theorem get_route_details_emissions (w : world)
    (start_lat start_lon end_lat end_lon : pyval) (vehicle : string)
    (e response seconds meters geometry : pyval) (t d q : float) :
  net w (route_url P start_lat start_lon end_lat end_lon) = Body response ->
  first_route response seconds meters geometry ->
  PyNum.truediv seconds (VInt 60) = Ok t ->
  PyNum.truediv meters (VInt 1000) = Ok d ->
  PyNum.positive e = true ->
  PyNum.truediv (VFloat d) e = Ok q ->
  exists factor z,
    get_route_details P start_lat start_lon end_lat end_lon vehicle e w
    = (Ok (VFloat t, VFloat d, VFloat z, geometry), w)
    /\ z = (q * factor)%float
    /\ (vehicle = "Gasoline" -> factor = 2.31%float)
    /\ (vehicle = "Diesel" -> factor = 2.68%float)
    /\ (vehicle = "Electric" -> factor = 0%float)
    /\ (vehicle = "Electric" -> is_finite q = true -> (z =? 0)%float = true)
    /\ ((d =? 0)%float = true -> (z =? 0)%float = true).
Proof.
  intros Hnet Hroute Ht Hd Hpos Hq.
  exists (factor_of vehicle), (q * factor_of vehicle)%float.
  split.
  { apply (get_route_details_runs P w _ _ _ _ vehicle e response seconds meters); trivial.
    now apply estimate_emissions_product. }
  split; [reflexivity |].
  repeat split.
  - intros ->. reflexivity.
  - intros ->. reflexivity.
  - intros ->. reflexivity.
  - intros -> Hfin. now apply FloatFacts.mul_zero_r.
  - intros Hzero.
    destruct (truediv_float_divisor d q e Hq Hpos) as (e' & -> & Hdiv).
    apply FloatFacts.mul_zero_l.
    + now apply FloatFacts.div_zero_l.
    + apply factor_of_finite.
Qed.

(** C9 (as amended).  Every vehicle type other than exactly "Gasoline"
    and "Diesel" gets the emission factor 0, so [get_route_details]
    treats it as it treats "Electric"; its estimate is 0 whenever the
    quotient of distance and fuel efficiency is finite. *)
Theorem emission_factor_unrecognized (vehicle : string) :
  vehicle <> "Gasoline" ->
  vehicle <> "Diesel" ->
  emission_factor vehicle = VInt 0
  /\ (forall w start_lat start_lon end_lat end_lon e,
        get_route_details P start_lat start_lon end_lat end_lon vehicle e w
        = get_route_details P start_lat start_lon end_lat end_lon "Electric" e w)
  /\ (forall d e q,
        PyNum.truediv (VFloat d) e = Ok q ->
        is_finite q = true ->
        exists z, estimate_emissions vehicle d e = Ok z /\ (z =? 0)%float = true).
Proof.
  intros Hg Hd. destruct (factor_of_other vehicle Hg Hd) as [Hfactor Hfloat].
  split; [exact Hfactor |]. split.
  - intros w start_lat start_lon end_lat end_lon e.
    unfold get_route_details, estimate_emissions. rewrite Hfactor. reflexivity.
  - intros d e q Hq Hfin. exists (q * factor_of vehicle)%float. split.
    + now apply estimate_emissions_product.
    + rewrite Hfloat. now apply FloatFacts.mul_zero_r.
Qed.

End Emissions.

(** ** Route journal *)

Section Journal.

Variable P : platform.

(** One append: read everything (nothing, when there is no file), add
    the new summary at the end, write everything back. *)
Lemma save_route_appends (w : world) (old : list pyval) (data : pyval) :
  holds (journal w) old ->
  save_route data w
  = (Ok tt,
     with_ui (with_journal w (Some (Parses (VList (old ++ [data])%list))))
             (ui w ++ [saved_notice])%list).
Proof.
  intros [[Hj ->] | Hj];
    unfold save_route, bind, try_except, load_journal, lift, append, dump_journal,
      st_success, emit, ret;
    rewrite Hj; reflexivity.
Qed.

Lemma save_all_appends (l : list summary) :
  forall (w : world) (old : list pyval),
    holds (journal w) old ->
    exists w',
      save_all l w = (Ok tt, w')
      /\ holds (journal w') (old ++ map saved_data l)%list
      /\ ui w' = (ui w ++ repeat saved_notice (List.length l))%list
      /\ net w' = net w /\ db w' = db w.
Proof.
  induction l as [| s rest IH]; intros w old Hold.
  - exists w. cbn. rewrite !app_nil_r. auto.
  - cbn [save_all]. unfold bind at 1.
    rewrite (save_route_appends w old (saved_data s) Hold).
    match goal with |- context [save_all rest ?w1] => set (w1' := w1) end.
    destruct (IH w1' (old ++ [saved_data s])%list) as (w' & Hrun & Hj & Hui & Hnet & Hdb).
    { right. reflexivity. }
    exists w'. split; [exact Hrun |].
    cbn [map List.length repeat]. rewrite <- app_assoc in Hj. cbn in Hj.
    split; [exact Hj |]. split.
    + rewrite Hui. subst w1'. cbn. rewrite <- app_assoc. reflexivity.
    + split; [rewrite Hnet | rewrite Hdb]; reflexivity.
Qed.

Lemma show_route_saved (idx : nat) (s : summary) (w : world) :
  show_route P idx (saved_data s) w
  = (Ok tt, with_ui w (ui w ++ route_block P idx s)%list).
Proof.
  unfold show_route, bind, st_write, emit, lift, route_block. cbn.
  unfold with_ui. cbn. rewrite <- !app_assoc. reflexivity.
Qed.

Lemma show_routes_saved (l : list summary) :
  forall (idx : nat) (w : world),
    show_routes P idx (map saved_data l) w
    = (Ok tt, with_ui w (ui w ++ route_blocks P idx l)%list).
Proof.
  induction l as [| s rest IH]; intros idx w.
  - cbn. unfold ret, with_ui. rewrite app_nil_r. destruct w; reflexivity.
  - cbn [map show_routes route_blocks]. unfold bind.
    rewrite show_route_saved, IH. unfold with_ui. cbn [ui net db journal].
    rewrite <- app_assoc. reflexivity.
Qed.

Lemma saved_routes_page_no_file (w : world) :
  journal w = None ->
  saved_routes_page P w
  = (Ok tt, with_ui w (ui w ++ [StWrite "Saved Routes:";
                                StWrite "No saved routes found."])%list).
Proof.
  intros Hj.
  unfold saved_routes_page, bind, try_except, load_journal, st_write, emit.
  cbn. rewrite Hj. cbn. unfold with_ui. cbn. rewrite <- app_assoc. reflexivity.
Qed.

Lemma saved_routes_page_lists (w : world) (l : list summary) :
  journal w = Some (Parses (VList (map saved_data l))) ->
  saved_routes_page P w
  = (Ok tt, with_ui w (ui w ++ StWrite "Saved Routes:" :: route_blocks P 0 l)%list).
Proof.
  intros Hj.
  unfold saved_routes_page, bind, try_except, load_journal, st_write, emit, lift.
  cbn. rewrite Hj. cbn [iterate]. rewrite show_routes_saved.
  unfold with_ui. cbn. rewrite <- app_assoc. reflexivity.
Qed.

(** C2. Starting without a journal file, saving [N] summaries one
    after the other and then opening the Saved Routes page lists exactly
    those [N] summaries, in the order they were saved; with no file the
    page lists nothing.  Each save reads the whole stored sequence (an
    absent file reads as empty), appends the summary and writes the
    whole sequence back. *)
Theorem journal_append_then_list (w : world) (l : list summary) :
  journal w = None ->
  exists w',
    save_all l w = (Ok tt, w')
    /\ journal w'
       = match l with
         | [] => None
         | _ => Some (Parses (VList (map saved_data l)))
         end
    /\ saved_routes_page P w'
       = (Ok tt,
          with_ui w' (ui w' ++ StWrite "Saved Routes:"
                      :: match l with
                         | [] => [StWrite "No saved routes found."]
                         | _ => route_blocks P 0 l
                         end)%list)
    /\ (forall v old data,
           holds (journal v) old ->
           save_route data v
           = (Ok tt,
              with_ui (with_journal v (Some (Parses (VList (old ++ [data])%list))))
                      (ui v ++ [saved_notice])%list)).
Proof.
  intros Hj.
  destruct (save_all_appends l w []) as (w' & Hrun & Hheld & _).
  { left. auto. }
  exists w'. split; [exact Hrun |].
  assert (Hj' : journal w' = match l with
                             | [] => None
                             | _ => Some (Parses (VList (map saved_data l)))
                             end).
  { destruct l as [| s rest].
    - cbn in Hrun. unfold ret in Hrun. inversion Hrun. subst w'. exact Hj.
    - destruct Hheld as [[_ Hnil] | Hsome]; [discriminate Hnil | exact Hsome]. }
  split; [exact Hj' |]. split.
  - destruct l as [| s rest].
    + now apply saved_routes_page_no_file.
    + now apply saved_routes_page_lists.
  - intros v old data. apply save_route_appends.
Qed.

(** C10. When the journal file is there but does not decode as JSON,
    saving a route and opening the Saved Routes page both end in an
    uncaught [JSONDecodeError]: nothing is written to the file, no
    message about the failure is shown, and the journal is not read as
    empty. *)
Theorem journal_malformed_raises (w : world) (raw : string) (data : pyval) :
  journal w = Some (Malformed raw) ->
  save_route data w = (Raise JSONDecodeError, w)
  /\ saved_routes_page P w
     = (Raise JSONDecodeError, with_ui w (ui w ++ [StWrite "Saved Routes:"])%list).
Proof.
  intros Hj. split.
  - unfold save_route, bind, try_except, load_journal. rewrite Hj. reflexivity.
  - unfold saved_routes_page, bind, try_except, load_journal, st_write, emit.
    cbn. rewrite Hj. reflexivity.
Qed.

End Journal.

(** ** The model at work *)

Example sha256_empty :
  hash_password "" = "e3b0c44298fc1c149afbf4c8996fb92427ae41e4649b934ca495991b7852b855".
Proof. vm_compute. reflexivity. Qed.

Example sha256_abc :
  hash_password "abc" = "ba7816bf8f01cfea414140de5dae2223b00361a396177a9cb410ff61f20015ad".
Proof. vm_compute. reflexivity. Qed.

Example sha256_two_blocks :
  hash_password "abcdbcdecdefdefgefghfghighijhijkijkljklmklmnlmnomnopnopq"
  = "248d6a61d20638b8e5c026930c3e6039a33ce45964ff2167f6ecedd419db06c1".
Proof. vm_compute. reflexivity. Qed.

Example signup_then_login :
  let w0 := Sample.start Sample.offline Sample.nowhere None in
  let w0 := with_db w0 {| reachable := true; users := None; auto_increment := 1 |} in
  let w1 := snd (create_user_table w0) in
  let w2 := snd (signup_user Sample.P "Asha" "Rao" "asha" "hunter2"
                   "9000000001" "KA01AB1234" "BS-6" w1) in
  db w2 = Sample.one_user
  /\ fst (login_user Sample.P "asha" "hunter2" w2) = Ok true
  /\ fst (login_user Sample.P "asha" "hunter3" w2) = Ok false
  /\ fst (login_user Sample.P "ASHA" "hunter2" w2) = Ok true
  /\ fst (login_user Sample.P "asha " "hunter2" w2) = Ok false.
Proof. vm_compute. repeat split. Qed.

(** A name that is too long only by trailing blanks is stored without
    them; where the collation counts trailing blanks, the name as typed
    then no longer selects the row. *)
Example signup_with_trailing_blanks :
  let u := "asha" ++ string_of_list_ascii (repeat " "%char 60) in
  let w1 := Sample.start Sample.offline Sample.empty_table None in
  let w2 := snd (signup_user Sample.P "Asha" "Rao" u "hunter2"
                   "9000000001" "KA01AB1234" "BS-6" w1) in
  fst (signup_user Sample.P "Asha" "Rao" u "hunter2"
         "9000000001" "KA01AB1234" "BS-6" w1) = Ok true
  /\ usernames (db w2) = ["asha" ++ string_of_list_ascii (repeat " "%char 46)]
  /\ fst (login_user Sample.P u "hunter2" w2) = Ok false.
Proof. vm_compute. repeat split. Qed.

Example signup_in_other_case :
  let w := Sample.start Sample.offline Sample.one_user None in
  signup_user Sample.P "A" "R" "ASHA" "other" "9000000002" "KA02" "BS-4" w
  = (Ok false,
     {| ui := [StError "Signup failed: IntegrityError"];
        net := Sample.offline;
        db := {| reachable := true; users := Some [Sample.asha]; auto_increment := 3 |};
        journal := None |}).
Proof. vm_compute. reflexivity. Qed.

Example signup_twice :
  let w := Sample.start Sample.offline Sample.one_user None in
  signup_user Sample.P "A" "R" "asha" "other" "9000000002" "KA02" "BS-4" w
  = (Ok false,
     {| ui := [StError "Signup failed: IntegrityError"];
        net := Sample.offline;
        db := {| reachable := true; users := Some [Sample.asha]; auto_increment := 3 |};
        journal := None |}).
Proof. vm_compute. reflexivity. Qed.

Example login_when_unreachable :
  let w := Sample.start Sample.offline Sample.nowhere None in
  login_user Sample.P "asha" "hunter2" w
  = (Ok false, with_ui w [StError "Login failed: OperationalError"]).
Proof. vm_compute. reflexivity. Qed.

Example gasoline_estimate :
  estimate_emissions "Gasoline" 12.5 (VInt 15) = Ok 1.925%float.
Proof. vm_compute. reflexivity. Qed.

Example weather_reading :
  let body :=
    VDict [("status", VStr "ok");
           ("data", VDict [("aqi", VInt 152);
                           ("city", VDict [("name", VStr "Delhi, India")])])] in
  fst (get_weather_details Sample.P "Delhi"
         (Sample.start (Sample.serving body) Sample.nowhere None))
  = Ok (VInt 152, VStr "Delhi, India").
Proof. vm_compute. reflexivity. Qed.

Example route_without_key :
  let w := Sample.start (Sample.serving Sample.no_route_found) Sample.nowhere None in
  get_route_details Sample.P (fst Sample.here) (snd Sample.here)
    (fst Sample.there) (snd Sample.there) "Diesel" (VInt 15) w
  = (Ok absent_route,
     with_ui w [StError "Unable to calculate route. Check your locations!"]).
Proof. vm_compute. reflexivity. Qed.

Example two_saves_listed :
  let w := Sample.start Sample.offline Sample.nowhere None in
  let w1 := snd (save_all [Sample.commute; Sample.airport] w) in
  ui (snd (saved_routes_page Sample.P w1))
  = [saved_notice; saved_notice;
     StWrite "Saved Routes:";
     StWrite "Route 1:"; StWrite "Weather City: Bengaluru";
     StWrite "Start Location: Indiranagar"; StWrite "End Location: Whitefield";
     StWrite "Travel Time: <0.00> minutes"; StWrite "Route Distance: <0.00> km";
     StWrite "Emissions: <0.00> kg CO2"; StWrite "---";
     StWrite "Route 2:"; StWrite "Weather City: Bengaluru";
     StWrite "Start Location: Whitefield"; StWrite "End Location: Airport";
     StWrite "Travel Time: <0.00> minutes"; StWrite "Route Distance: <0.00> km";
     StWrite "Emissions: <0.00> kg CO2"; StWrite "---"].
Proof. vm_compute. reflexivity. Qed.

(** ** Instances of the statements above *)

Lemma fold_case_hex (s : string) :
  Forall (fun c => In c hex_chars) (list_ascii_of_string s) ->
  Sample.fold_case s = s.
Proof.
  induction s as [| c rest IH]; intros H; [reflexivity |].
  cbn [list_ascii_of_string] in H. inversion H as [| c0 l0 Hc Hrest]. subst.
  cbn [Sample.fold_case]. rewrite (IH Hrest). f_equal.
  cbv [hex_chars list_ascii_of_string] in Hc. cbn [In] in Hc.
  repeat (destruct Hc as [Hc | Hc]; [subst c; reflexivity |]). destruct Hc.
Qed.

Lemma sample_tells_digests_apart : tells_digests_apart Sample.P.
Proof.
  intros a b Ha Hb Hc. cbn [collate Sample.P] in Hc. unfold Sample.ignore_case in Hc.
  rewrite (fold_case_hex a Ha), (fold_case_hex b Hb) in Hc.
  now apply String.eqb_eq.
Qed.

Lemma login_user_correct_witness :
  let w := Sample.start Sample.offline Sample.one_user None in
  let w' := snd (signup_user Sample.P "Ravi" "Iyer" "ravi" "y" "9000000003" "KA03" "BS-6" w) in
  reachable (db w) = true
  /\ users (db w) = Some [Sample.asha]
  /\ login_user Sample.P "asha" "hunter2" w = (Ok true, w)
  /\ fits 50 "ravi" = true
  /\ signup_user Sample.P "Ravi" "Iyer" "ravi" "y" "9000000003" "KA03" "BS-6" w = (Ok true, w')
  /\ login_user Sample.P "ravi" "y" w' = (Ok true, w')
  /\ login_user Sample.P "ravi" "wrong" w' = (Ok false, w').
Proof.
  cbv zeta. split; [reflexivity |]. split; [reflexivity |].
  destruct (login_user_correct Sample.P
              (Sample.start Sample.offline Sample.one_user None)
              "asha" "hunter2" [Sample.asha] eq_refl eq_refl)
    as [[b [Hrun Hiff]] _].
  assert (Hb : b = true).
  { apply Hiff. exists Sample.asha.
    split; [left; reflexivity |]. split; [reflexivity |].
    vm_compute. reflexivity. }
  split; [rewrite Hrun, Hb; reflexivity |].
  split; [reflexivity |].
  assert (Hsign : signup_user Sample.P "Ravi" "Iyer" "ravi" "y" "9000000003" "KA03" "BS-6"
                    (Sample.start Sample.offline Sample.one_user None)
                  = (Ok true,
                     snd (signup_user Sample.P "Ravi" "Iyer" "ravi" "y" "9000000003"
                            "KA03" "BS-6"
                            (Sample.start Sample.offline Sample.one_user None))))
    by (vm_compute; reflexivity).
  split; [exact Hsign |].
  destruct (login_user_correct Sample.P
              (Sample.start Sample.offline Sample.one_user None)
              "ravi" "y" [Sample.asha] eq_refl eq_refl)
    as [_ Hafter].
  destruct (Hafter eq_refl sample_tells_digests_apart
              "Ravi" "Iyer" "9000000003" "KA03" "BS-6" _ Hsign) as [Hgood Hbad].
  split; [exact Hgood |].
  apply Hbad. intros Heq. vm_compute in Heq. discriminate Heq.
Defined.

(** With the sample collation, which ignores letter case as the
    server's default ones do, "ASHA" logs in although no row has the
    username "ASHA". *)
Lemma login_ignores_case :
  let w := Sample.start Sample.offline Sample.one_user None in
  reachable (db w) = true
  /\ users (db w) = Some [Sample.asha]
  /\ login_user Sample.P "ASHA" "hunter2" w = (Ok true, w)
  /\ existsb (fun r => String.eqb (username r) "ASHA"
                       && String.eqb (password r) (hash_password "hunter2"))
       [Sample.asha]
     = false.
Proof. vm_compute. repeat split. Qed.

Lemma signup_user_duplicate_witness :
  let w := Sample.start Sample.offline Sample.one_user None in
  users (db w) = Some [Sample.asha]
  /\ In Sample.asha [Sample.asha]
  /\ exists e w',
      signup_user Sample.P "Asha" "Rao" "asha" "hunter3"
        "9000000002" "KA05XY0001" "BS-4" w = (Ok false, w')
      /\ ui w' = (ui w ++ [StError ("Signup failed: " ++ exn_text Sample.P e)])%list
      /\ users (db w') = Some [Sample.asha]
      /\ reachable (db w') = reachable (db w)
      /\ journal w' = journal w.
Proof.
  cbv zeta. split; [reflexivity |]. split; [now left |].
  apply (signup_user_duplicate Sample.P
           (Sample.start Sample.offline Sample.one_user None)
           "Asha" "Rao" "asha" "hunter3" "9000000002" "KA05XY0001" "BS-4"
           [Sample.asha]).
  - reflexivity.
  - exists Sample.asha. split; [now left | reflexivity].
Defined.

Lemma hash_password_deterministic_witness :
  "hunter2" = "hunter2" /\ hash_password "hunter2" = hash_password "hunter2".
Proof.
  split; [reflexivity |].
  apply (hash_password_deterministic "hunter2" "hunter2"). reflexivity.
Defined.

Lemma get_weather_details_failures_witness :
  let down := Sample.start Sample.offline Sample.nowhere None in
  let up := Sample.start (Sample.serving Sample.unknown_station) Sample.nowhere None in
  get_weather_details Sample.P "Atlantis" down
  = (Ok (VStr "N/A", VStr "Error fetching data"),
     with_ui down [StError "Error fetching data: connection refused"])
  /\ get_weather_details Sample.P "Atlantis" up
     = (Ok (VStr "N/A", VStr "City not found"),
        with_ui up [StError "Error fetching weather data: Unknown station"]).
Proof.
  cbv zeta.
  apply (get_weather_details_failures Sample.P
           (Sample.start Sample.offline Sample.nowhere None)
           (Sample.start (Sample.serving Sample.unknown_station) Sample.nowhere None)
           "Atlantis" "connection refused" Sample.unknown_station).
  - discriminate.
  - reflexivity.
  - reflexivity.
  - exists [("status", VStr "error"); ("data", VStr "Unknown station")].
    split; [reflexivity | left; reflexivity].
Defined.

(** The claim of C4 as it stands fails: the two failure kinds return
    different city-name components. *)
Lemma weather_sentinels_differ :
  let down := Sample.start Sample.offline Sample.nowhere None in
  let up := Sample.start (Sample.serving Sample.unknown_station) Sample.nowhere None in
  fst (get_weather_details Sample.P "Atlantis" down)
  = Ok (VStr "N/A", VStr "Error fetching data")
  /\ fst (get_weather_details Sample.P "Atlantis" up)
     = Ok (VStr "N/A", VStr "City not found")
  /\ fst (get_weather_details Sample.P "Atlantis" down)
     <> fst (get_weather_details Sample.P "Atlantis" up).
Proof.
  cbv zeta. split; [vm_compute; reflexivity |]. split; [vm_compute; reflexivity |].
  vm_compute. discriminate.
Qed.

Lemma geocode_location_result_witness :
  let w := Sample.start (Sample.serving Sample.bengaluru) Sample.nowhere None in
  net w (geocode_url Sample.P "Bengaluru") = Body Sample.bengaluru
  /\ geocode_location Sample.P "Bengaluru" w = (Ok Sample.here, w).
Proof.
  cbv zeta. split; [reflexivity |].
  eapply (proj2 (geocode_location_result Sample.P
                   (Sample.start (Sample.serving Sample.bengaluru) Sample.nowhere None)
                   "Bengaluru" Sample.bengaluru eq_refl));
    reflexivity.
Defined.

Lemma geocode_location_no_match_run :
  let w := Sample.start (Sample.serving Sample.no_results) Sample.nowhere None in
  geocode_location Sample.P "Atlantis" w
  = (Ok (VNone, VNone), with_ui w [StError "Unable to geocode location: Atlantis"]).
Proof. vm_compute. reflexivity. Qed.

(** C5. An upstream response with no route in it, [{"routes": []}]:
    [get_route_details] raises [IndexError] at line 129 instead of
    reporting the error and returning four [None]s. *)
Theorem get_route_details_empty_routes (P : platform)
    (start_lat start_lon end_lat end_lon : pyval) (vehicle : string)
    (fuel_efficiency : pyval) (u : list ui_event) (d : database)
    (j : option file_body) :
  let w := {| ui := u; net := Sample.serving Sample.empty_routes; db := d; journal := j |} in
  get_route_details P start_lat start_lon end_lat end_lon vehicle fuel_efficiency w
  = (Raise IndexError, w).
Proof. reflexivity. Qed.

Lemma get_route_details_emissions_witness :
  let w := Sample.start (Sample.serving Sample.one_route) Sample.nowhere None in
  PyNum.positive (VInt 15) = true
  /\ PyNum.truediv (VFloat 12.5) (VInt 15) = Ok (12.5 / 15)%float
  /\ exists z,
      get_route_details Sample.P (fst Sample.here) (snd Sample.here)
        (fst Sample.there) (snd Sample.there) "Electric" (VInt 15) w
      = (Ok (VFloat 25, VFloat 12.5, VFloat z, Sample.points), w)
      /\ (z =? 0)%float = true.
Proof.
  cbv zeta. split; [reflexivity |]. split; [vm_compute; reflexivity |].
  destruct (get_route_details_emissions Sample.P
              (Sample.start (Sample.serving Sample.one_route) Sample.nowhere None)
              (fst Sample.here) (snd Sample.here) (fst Sample.there) (snd Sample.there)
              "Electric" (VInt 15) Sample.one_route (VInt 1500) (VInt 12500)
              Sample.points 25%float 12.5%float (12.5 / 15)%float)
    as (factor & z & Hrun & _ & _ & _ & _ & Helectric & _).
  - reflexivity.
  - unfold first_route, Sample.one_route. repeat eexists.
  - vm_compute. reflexivity.
  - vm_compute. reflexivity.
  - reflexivity.
  - vm_compute. reflexivity.
  - exists z. split; [exact Hrun |].
    apply Helectric; [reflexivity | vm_compute; reflexivity].
Defined.

(** The claim of C1 as it stands fails: with a fuel efficiency of
    2^-1074 > 0 the quotient overflows, and the estimate for an electric
    vehicle is NaN, not 0. *)
Lemma electric_estimate_nan :
  let w := Sample.start (Sample.serving Sample.one_route) Sample.nowhere None in
  PyNum.positive (VFloat Sample.tiny) = true
  /\ get_route_details Sample.P (fst Sample.here) (snd Sample.here)
       (fst Sample.there) (snd Sample.there) "Electric" (VFloat Sample.tiny) w
     = (Ok (VFloat 25, VFloat 12.5, VFloat nan, Sample.points), w)
  /\ (nan =? 0)%float = false.
Proof. vm_compute. repeat split. Qed.

Lemma emission_factor_unrecognized_witness :
  "Hybrid" <> "Gasoline"
  /\ "Hybrid" <> "Diesel"
  /\ emission_factor "Hybrid" = VInt 0
  /\ exists z, estimate_emissions "Hybrid" 12.5 (VInt 15) = Ok z /\ (z =? 0)%float = true.
Proof.
  assert (Hg : "Hybrid" <> "Gasoline") by discriminate.
  assert (Hd : "Hybrid" <> "Diesel") by discriminate.
  split; [exact Hg |]. split; [exact Hd |].
  destruct (emission_factor_unrecognized Sample.P "Hybrid" Hg Hd) as (Hf & _ & Hz).
  split; [exact Hf |].
  apply (Hz 12.5%float (VInt 15) (12.5 / 15)%float); vm_compute; reflexivity.
Defined.

(** The claim of C9 as it stands fails: for a misspelled vehicle type
    and a quotient that overflows, the estimate is NaN, not 0. *)
Lemma unrecognized_estimate_nan :
  let w := Sample.start (Sample.serving Sample.one_route) Sample.nowhere None in
  emission_factor "electric" = VInt 0
  /\ get_route_details Sample.P (fst Sample.here) (snd Sample.here)
       (fst Sample.there) (snd Sample.there) "electric" (VFloat 1e-320) w
     = (Ok (VFloat 25, VFloat 12.5, VFloat nan, Sample.points), w)
  /\ (nan =? 0)%float = false.
Proof. vm_compute. repeat split. Qed.

Lemma journal_append_then_list_witness :
  let w := Sample.start Sample.offline Sample.nowhere None in
  journal w = None
  /\ exists w',
      save_all [Sample.commute; Sample.airport] w = (Ok tt, w')
      /\ journal w'
         = Some (Parses (VList [saved_data Sample.commute; saved_data Sample.airport]))
      /\ saved_routes_page Sample.P w'
         = (Ok tt,
            with_ui w' (ui w' ++ StWrite "Saved Routes:"
                        :: route_blocks Sample.P 0 [Sample.commute; Sample.airport])%list).
Proof.
  cbv zeta. split; [reflexivity |].
  destruct (journal_append_then_list Sample.P
              (Sample.start Sample.offline Sample.nowhere None)
              [Sample.commute; Sample.airport] eq_refl)
    as (w' & Hrun & Hj & Hpage & _).
  exists w'. split; [exact Hrun |]. split; [exact Hj | exact Hpage].
Defined.

Lemma journal_malformed_raises_witness :
  let w := Sample.start Sample.offline Sample.nowhere (Some (Malformed "[{")) in
  journal w = Some (Malformed "[{")
  /\ save_route (saved_data Sample.commute) w = (Raise JSONDecodeError, w)
  /\ saved_routes_page Sample.P w
     = (Raise JSONDecodeError, with_ui w [StWrite "Saved Routes:"]).
Proof.
  cbv zeta. split; [reflexivity |].
  apply (journal_malformed_raises Sample.P
           (Sample.start Sample.offline Sample.nowhere (Some (Malformed "[{")))
           "[{" (saved_data Sample.commute)).
  reflexivity.
Defined.

(** * Further properties *)

(** ** The digest as a column value *)

(** X1. Whatever the password, its stored form is 64 characters out
    of [0-9a-f], so it always fits the [VARCHAR(255)] column: no
    password is too long to sign up with. *)
Theorem hash_password_shape (pw : string) :
  String.length (hash_password pw) = 64%nat
  /\ Forall (fun c => In c hex_chars) (list_ascii_of_string (hash_password pw))
  /\ fits 255 (hash_password pw) = true.
Proof.
  split; [apply hash_password_length |]. split; [apply hash_password_hex |].
  unfold fits. rewrite hash_password_length. reflexivity.
Qed.

(** ** The credential store as a whole *)

Section StoreMore.

Variable P : platform.

#[local] Opaque hash_password.

Lemma login_user_fst (w : world) (u pw : string) :
  fst (login_user P u pw w) = Ok (login_answer P (db w) u pw).
Proof.
  destruct (login_user_cases P w u pw) as [E | [Hno [e [E _]]]]; rewrite E; cbn [fst].
  - reflexivity.
  - now rewrite Hno.
Qed.

Lemma login_user_db (w : world) (u pw : string) :
  db (snd (login_user P u pw w)) = db w
  /\ journal (snd (login_user P u pw w)) = journal w
  /\ net (snd (login_user P u pw w)) = net w.
Proof.
  destruct (login_user_cases P w u pw) as [E | [_ [e [E _]]]]; rewrite E; repeat split.
Qed.

Lemma create_user_table_cases (w : world) :
  create_user_table w
  = if reachable (db w)
    then (Ok tt,
          match users (db w) with
          | Some _ => w
          | None => with_db w {| reachable := true; users := Some [];
                                 auto_increment := empty_counter |}
          end)
    else (Raise OperationalError, w).
Proof.
  destruct w as [u0 n0 [up tab counter] j0].
  destruct up; [destruct tab |]; reflexivity.
Qed.

(** X2. [signup_user] never raises and never touches the journal.
    When it returns True it has shown nothing and has added exactly one
    row, whose password is the digest of the typed one and whose
    username is the typed one when that has at most 50 bytes; when it
    returns False the rows are as before and "Signup failed: ..." is
    shown.  It returns True whenever the server is reachable, the
    table exists, the six text fields have at most as many bytes as
    their columns are wide, no row's username equals the typed one in
    the collation, and the id counter is within INT; it returns False
    whenever the server is unreachable, the table is missing, or a row
    has exactly the typed username. *)
Theorem signup_user_outcome (w : world) (fn ln u pw mobile vnum vtype : string) :
  exists b w',
    signup_user P fn ln u pw mobile vnum vtype w = (Ok b, w')
    /\ journal w' = journal w
    /\ (b = true ->
        ui w' = ui w
        /\ exists rows kept,
            users (db w) = Some rows
            /\ users (db w') = Some (rows ++ [kept])%list
            /\ password kept = hash_password pw
            /\ (fits 50 u = true -> username kept = u))
    /\ (b = false ->
        users (db w') = users (db w)
        /\ exists e, ui w' = (ui w ++ [StError ("Signup failed: " ++ exn_text P e)])%list)
    /\ (reachable (db w) = true ->
        (exists rows,
            users (db w) = Some rows
            /\ forall r, In r rows -> sql_eq P (username r) u = false) ->
        fields_fit fn ln u mobile vnum vtype = true ->
        auto_increment (db w) <= int_max ->
        b = true)
    /\ (reachable (db w) = false
        \/ users (db w) = None
        \/ (exists rows r, users (db w) = Some rows /\ In r rows /\ username r = u) ->
        b = false).
Proof.
  destruct (signup_user_cases P w fn ln u pw mobile vnum vtype)
    as [(rows & kept & Hup & Htab & Hstore & Hfree & Hrange & E)
       | (e & counter & E & Hwhy)].
  - exists true. eexists. split; [exact E |]. split; [reflexivity |].
    destruct (store_kept P _ _ Hstore) as (_ & Hname & Hpw).
    cbn [new_row username password] in Hname, Hpw.
    split; [| split; [discriminate | split; [reflexivity |]]].
    + intros _. split; [reflexivity |]. exists rows, kept.
      split; [exact Htab |]. split; [reflexivity |]. split.
      * rewrite varchar_digest in Hpw. now inversion Hpw.
      * intros Hfit. rewrite (varchar_fits P 50 u Hfit) in Hname. now inversion Hname.
    + intros [Hdown | [Hnone | (rows0 & r & Htab0 & Hin & Hu)]]; try congruence.
      rewrite Htab in Htab0. inversion Htab0. subst rows0.
      rewrite (username_taken_typed P u (username kept) rows r Hin Hu) in Hfree.
      discriminate Hfree.
  - exists false. eexists. split; [exact E |]. split; [reflexivity |].
    split; [discriminate |]. split; [| split; [| reflexivity]].
    + intros _. split; [reflexivity |]. exists e. reflexivity.
    + intros Hup (rows & Htab & Hnone) Hfit Hrange. exfalso.
      pose proof (store_fitting P (db w) fn ln u pw mobile vnum vtype Hfit) as Hstore.
      destruct Hwhy as [Hdown | [Hno | [Hrej | [(rows0 & kept & Htab0 & Hkept & Htaken) | Hover]]]].
      * congruence.
      * congruence.
      * congruence.
      * rewrite Hstore in Hkept. inversion Hkept. subst kept.
        rewrite Htab in Htab0. inversion Htab0. subst rows0.
        cbn [new_row username] in Htaken.
        unfold username_taken in Htaken. apply existsb_exists in Htaken.
        destruct Htaken as [r [Hin Hr]]. specialize (Hnone r Hin).
        apply orb_prop in Hr. destruct Hr as [Hr | Hr]; [| congruence].
        apply String.eqb_eq in Hr. rewrite Hr in Hnone.
        now rewrite sql_eq_refl in Hnone.
      * apply Z.ltb_lt in Hover. lia.
Qed.

Lemma run_call_usernames (c : store_call) (w : world) :
  NoDup (usernames (db w)) -> NoDup (usernames (db (run_call P c w))).
Proof.
  intros Hnd. destruct c as [| fn ln u pw mobile vnum vtype | u pw]; cbn [run_call].
  - rewrite create_user_table_cases.
    destruct (reachable (db w)); cbn [snd]; [| exact Hnd].
    destruct (users (db w)) eqn:Htab; [exact Hnd |].
    unfold usernames. cbn. constructor.
  - destruct (signup_user_cases P w fn ln u pw mobile vnum vtype)
      as [(rows & kept & Hup & Htab & Hstore & Hfree & Hrange & E)
         | (e & counter & E & _)]; rewrite E; cbn [snd].
    + unfold usernames in *. cbn [db with_db users]. rewrite Htab in Hnd.
      rewrite map_app. cbn [map].
      apply NoDup_app; [exact Hnd | repeat constructor; intros [] |].
      intros x Hin [Hx | []]. subst x.
      apply in_map_iff in Hin. destruct Hin as [r [Hu Hin]].
      destruct (username_taken_false P _ _ _ Hfree r Hin) as [_ Hno].
      rewrite Hu, sql_eq_refl in Hno. discriminate Hno.
    + exact Hnd.
  - now rewrite (proj1 (login_user_db w u pw)).
Qed.

(** X3. The usernames in [users] stay pairwise distinct under every
    sequence of [create_user_table], [signup_user] and [login_user]
    calls, whatever their arguments and outcomes. *)
Theorem usernames_stay_distinct (calls : list store_call) (w : world) :
  NoDup (usernames (db w)) -> NoDup (usernames (db (run_calls P calls w))).
Proof.
  unfold run_calls. revert w.
  induction calls as [| c calls IH]; intros w Hnd; cbn [fold_left].
  - exact Hnd.
  - apply IH. now apply run_call_usernames.
Qed.

(** X4. A [signup_user] under a name of at most 50 bytes, accepted or
    rejected, never changes what [login_user] answers for a name that
    the collation tells apart from it. *)
Theorem signup_user_frame (w : world) (fn ln u' pw' mobile vnum vtype u pw : string) :
  fits 50 u' = true ->
  sql_eq P u' u = false ->
  fst (login_user P u pw (snd (signup_user P fn ln u' pw' mobile vnum vtype w)))
  = fst (login_user P u pw w).
Proof.
  intros Hfit Hne. rewrite !login_user_fst. f_equal.
  destruct (signup_user_cases P w fn ln u' pw' mobile vnum vtype)
    as [(rows & kept & Hup & Htab & Hstore & Hfree & Hrange & E)
       | (e & counter & E & _)]; rewrite E; cbn [snd].
  - destruct (store_kept P _ _ Hstore) as (_ & Hname & _).
    cbn [new_row username] in Hname.
    rewrite (varchar_fits P 50 u' Hfit) in Hname. inversion Hname as [Hu].
    unfold login_answer. cbn [db with_db reachable users]. rewrite Htab, Hup.
    rewrite existsb_app. cbn [existsb]. unfold matches at 2.
    rewrite <- Hu, Hne. cbn [andb orb]. now rewrite orb_false_r.
  - reflexivity.
Qed.

(** X5. [login_user] never raises and writes neither to the table nor
    to the journal.  It answers True exactly when the server is
    reachable and the table holds a row whose username and digest equal
    the typed username and the digest of the typed password in the
    comparison of the columns' collation; whenever it reports "Login
    failed: ..." its answer is False. *)
Theorem login_user_outcome (w : world) (u pw : string) :
  exists b w',
    login_user P u pw w = (Ok b, w')
    /\ (b = true <->
        reachable (db w) = true
        /\ exists rows r,
            users (db w) = Some rows
            /\ In r rows
            /\ sql_eq P (username r) u = true
            /\ sql_eq P (password r) (hash_password pw) = true)
    /\ db w' = db w
    /\ journal w' = journal w
    /\ (ui w' = ui w
        \/ (b = false
            /\ exists e,
                ui w' = (ui w ++ [StError ("Login failed: " ++ exn_text P e)])%list)).
Proof.
  assert (Hiff : login_answer P (db w) u pw = true <->
                 reachable (db w) = true
                 /\ exists rows r,
                     users (db w) = Some rows
                     /\ In r rows
                     /\ sql_eq P (username r) u = true
                     /\ sql_eq P (password r) (hash_password pw) = true).
  { split.
    - intros H. unfold login_answer in H. apply andb_prop in H. destruct H as [Hup H].
      split; [exact Hup |].
      destruct (users (db w)) as [rows |] eqn:Htab; [| discriminate H].
      apply existsb_exists in H. destruct H as [r [Hin Hm]].
      unfold matches in Hm. apply andb_prop in Hm. destruct Hm as [Hu Hp].
      now exists rows, r.
    - intros (Hup & rows & r & Htab & Hin & Hu & Hp).
      apply (login_answer_iff P (db w) u pw rows Hup Htab). now exists r. }
  exists (login_answer P (db w) u pw).
  destruct (login_user_cases P w u pw) as [E | [Hno [e [E _]]]].
  - exists w. split; [exact E |]. split; [exact Hiff |]. repeat split. now left.
  - eexists. split; [rewrite Hno; exact E |]. split; [exact Hiff |]. repeat split.
    right. split; [exact Hno |]. exists e. reflexivity.
Qed.

(** X6. On a reachable server without the table, creating the table,
    signing up with fields that fit, and logging in with the same
    username and password succeed one after the other, and the table
    then holds exactly that user. *)
Theorem first_user_signs_up_and_logs_in (w : world)
    (fn ln u pw mobile vnum vtype : string) :
  reachable (db w) = true ->
  users (db w) = None ->
  fields_fit fn ln u mobile vnum vtype = true ->
  exists w1 w2,
    create_user_table w = (Ok tt, w1)
    /\ signup_user P fn ln u pw mobile vnum vtype w1 = (Ok true, w2)
    /\ login_user P u pw w2 = (Ok true, w2)
    /\ usernames (db w2) = [u]
    /\ ui w2 = ui w.
Proof.
  intros Hup Htab Hfit.
  rewrite create_user_table_cases, Hup, Htab.
  eexists. eexists. split; [reflexivity |].
  match goal with |- context [signup_user _ _ _ _ _ _ _ _ ?w1] => set (w1' := w1) end.
  pose proof (store_fitting P (db w1') fn ln u pw mobile vnum vtype Hfit) as Hstore.
  destruct (signup_user_cases P w1' fn ln u pw mobile vnum vtype)
    as [(rows & kept & Hup1 & Htab1 & Hkept & Hfree & Hrange & E)
       | (e & counter & E & Hwhy)].
  - rewrite Hstore in Hkept. inversion Hkept. subst kept.
    subst w1'. cbn [db with_db users] in Htab1. inversion Htab1. subst rows.
    split; [exact E |].
    match goal with |- context [login_user _ _ _ ?w2] => set (w2' := w2) end.
    assert (Hans : login_answer P (db w2') u pw = true).
    { subst w2'. unfold login_answer. cbn. unfold matches. cbn.
      now rewrite !sql_eq_refl. }
    destruct (login_user_cases P w2' u pw) as [E2 | [Hno _]]; [| congruence].
    rewrite Hans in E2. split; [exact E2 |]. split; reflexivity.
  - exfalso. subst w1'. cbn [db with_db reachable users auto_increment] in Hwhy, Hstore.
    destruct Hwhy as [Hdown | [Hno | [Hrej | [(rows0 & kept & Htab0 & Hkept & Htaken) | Hover]]]];
      try discriminate.
    + cbn [db with_db] in Hrej. congruence.
    + inversion Htab0. subst rows0. discriminate Htaken.
Qed.

(** X7. [create_user_table] on a reachable server keeps every row that
    is already there, and running it again changes nothing; on an
    unreachable server it raises [OperationalError], which nothing
    catches. *)
Theorem create_user_table_idempotent (w : world) :
  (reachable (db w) = true ->
   exists w1,
     create_user_table w = (Ok tt, w1)
     /\ users (db w1) = Some (match users (db w) with Some rows => rows | None => [] end)
     /\ ui w1 = ui w /\ journal w1 = journal w
     /\ create_user_table w1 = (Ok tt, w1))
  /\ (reachable (db w) = false -> create_user_table w = (Raise OperationalError, w)).
Proof.
  rewrite create_user_table_cases. split; intros Hup; rewrite Hup; [| reflexivity].
  destruct (users (db w)) as [rows |] eqn:Htab.
  - exists w. rewrite create_user_table_cases, Hup, Htab. repeat split; trivial.
  - eexists. split; [reflexivity |]. rewrite create_user_table_cases. repeat split.
Qed.

End StoreMore.

(** ** The login and signup buttons *)

Section Buttons.

Variable P : platform.

#[local] Opaque hash_password.


(** X9. Pressing Signup never raises.  "Signup successful! You can now
    log in." is shown exactly when a row was added to the table, and
    that row carries the digest of the typed password; in every other
    case the rows are unchanged and the page shows the reason followed
    by "Signup failed. Try again.". *)
Theorem signup_pressed_reports (w : world) (fn ln u pw mobile vnum vtype : string) :
  exists w',
    signup_pressed P fn ln u pw mobile vnum vtype w = (Ok tt, w')
    /\ ((ui w' = (ui w ++ [StSuccess "Signup successful! You can now log in."])%list
         /\ exists rows kept,
             users (db w) = Some rows
             /\ users (db w') = Some (rows ++ [kept])%list
             /\ password kept = hash_password pw)
        \/ (users (db w') = users (db w)
            /\ exists e,
                ui w' = (ui w ++ [StError ("Signup failed: " ++ exn_text P e);
                                  StError "Signup failed. Try again."])%list)).
Proof.
  unfold signup_pressed, bind.
  destruct (signup_user_cases P w fn ln u pw mobile vnum vtype)
    as [(rows & kept & Hup & Htab & Hstore & Hfree & Hrange & E)
       | (e & counter & E & _)]; rewrite E.
  - eexists. split; [reflexivity |]. left.
    split; [reflexivity |]. exists rows, kept. split; [exact Htab |].
    split; [reflexivity |].
    destruct (store_kept P _ _ Hstore) as (_ & _ & Hpw).
    cbn [new_row password] in Hpw. rewrite varchar_digest in Hpw. now inversion Hpw.
  - eexists. split; [reflexivity |]. right.
    split; [reflexivity |]. exists e. cbn. rewrite <- app_assoc. reflexivity.
Qed.

End Buttons.

(** ** The clients under failure *)

Section ClientsMore.

Variable P : platform.

Ltac page_eq :=
  unfold st_write, st_error, st_success, emit, with_ui, unavailable;
  cbn [ui net db journal]; rewrite <- ?app_assoc; reflexivity.



(** X11. When the air-quality lookup fails, by a network failure or by
    an API error, the weather section shows the error and then "Unable
    to fetch weather details. Please try another location."; it does
    not raise. *)
Theorem weather_section_unavailable (w : world) (city : string) :
  city <> "" ->
  (exists text, net w (weather_url P city) = NetFail text)
  \/ (exists response, net w (weather_url P city) = Body response /\ api_error response) ->
  exists report,
    weather_section P city w
    = (Ok tt, with_ui w (ui w ++ [StError report; unavailable])%list).
Proof.
  intros Hcity Hfail. unfold weather_section, bind. cbn [Py.truthy].
  destruct (String.eqb_spec city "") as [E | _]; [contradiction |]. cbn [negb].
  destruct Hfail as [[text Hnet] | [response [Hnet Herr]]].
  - rewrite (get_weather_details_netfail P w city text Hcity Hnet).
    eexists. cbn [Py.is_str String.eqb Ascii.eqb Bool.eqb negb]. page_eq.
  - rewrite (get_weather_details_api_error P w city response Hcity Hnet Herr).
    eexists. cbn [Py.is_str String.eqb Ascii.eqb Bool.eqb negb]. page_eq.
Qed.

(** X12. For an answer that is not an error and carries a [data]
    object whose "city", if any, is an object: the weather section
    shows "Air Quality Index for <station>: <aqi>" when [data] has an
    "aqi" other than the string "N/A", and shows the same "Unable to
    fetch weather details" line as for a failure, without any error
    message, when "aqi" is missing. *)
Theorem weather_section_reading (w : world) (city : string)
    (items data : list (string * pyval)) :
  city <> "" ->
  net w (weather_url P city) = Body (VDict items) ->
  (forall status, Py.lookup "status" items = Some status -> Py.is_str "error" status = false) ->
  Py.lookup "data" items = Some (VDict data) ->
  (forall info, Py.lookup "city" data = Some info -> Py.is_dict info = true) ->
  (forall aqi,
      Py.lookup "aqi" data = Some aqi ->
      Py.is_str "N/A" aqi = false ->
      weather_section P city w
      = (Ok tt,
         with_ui w (ui w ++ [StWrite ("Air Quality Index for "
                                      ++ fmt P (station_name data)
                                      ++ ": " ++ fmt P aqi)])%list))
  /\ (Py.lookup "aqi" data = None ->
      weather_section P city w = (Ok tt, with_ui w (ui w ++ [unavailable])%list)).
Proof.
  intros Hcity Hnet Hstatus Hdata Hinfo.
  assert (Hrun : get_weather_details P city w
                 = (Ok (match Py.lookup "aqi" data with
                        | Some aqi => aqi
                        | None => VStr "N/A"
                        end, station_name data), w)).
  { unfold get_weather_details. cbn [Py.truthy].
    destruct (String.eqb_spec city "") as [E | _]; [contradiction |]. cbn [negb].
    unfold try_except, bind, requests_get_json, lift, ret. rewrite Hnet.
    unfold Py.get at 1.
    assert (Hs : negb (Py.is_str "error"
                         match Py.lookup "status" items with
                         | Some x => x
                         | None => VNone
                         end) = true).
    { destruct (Py.lookup "status" items) as [status |] eqn:E; [| reflexivity].
      now rewrite (Hstatus status eq_refl). }
    destruct (Py.lookup "status" items) as [status |]; rewrite Hs;
      unfold Py.get, Py.getitem, station_name; rewrite Hdata; cbn [Py.is_dict];
      destruct (Py.lookup "aqi" data);
      destruct (Py.lookup "city" data) as [info |] eqn:Hc;
      try (specialize (Hinfo info eq_refl); destruct info; try discriminate Hinfo);
      try match goal with
          | |- context [Py.lookup "name" ?l] => is_var l; destruct (Py.lookup "name" l)
          end;
      reflexivity. }
  unfold weather_section, bind. cbn [Py.truthy].
  destruct (String.eqb_spec city "") as [E | _]; [contradiction |]. cbn [negb].
  rewrite Hrun. split.
  - intros aqi Haqi Hna. rewrite Haqi, Hna. reflexivity.
  - intros Haqi. rewrite Haqi. reflexivity.
Qed.

End ClientsMore.

(** ** Route lookup *)

Section RoutesMore.

Variable P : platform.

Lemma bind_ok {A B} (c : M A) (k : A -> M B) (w w' : world) (b : B) :
  bind c k w = (Ok b, w') ->
  exists a w1, c w = (Ok a, w1) /\ k a w1 = (Ok b, w').
Proof.
  unfold bind. destruct (c w) as [[a | e] w1]; intros H; [| discriminate H].
  now exists a, w1.
Qed.

Lemma lift_ok {A} (r : result A) (w w' : world) (a : A) :
  lift r w = (Ok a, w') -> r = Ok a /\ w' = w.
Proof. unfold lift. intros H. inversion H. auto. Qed.

Lemma requests_get_json_same (url : string) (w w' : world) (r : result pyval) :
  requests_get_json url w = (r, w') -> w' = w.
Proof.
  unfold requests_get_json. destruct (net w url); intros H; now inversion H.
Qed.

Ltac step H :=
  let a := fresh "a" in
  let w1 := fresh "w" in
  let Hc := fresh "Hc" in
  apply bind_ok in H; destruct H as (a & w1 & Hc & H);
  first [ apply lift_ok in Hc; destruct Hc as [Hc ->]
        | apply requests_get_json_same in Hc; subst w1 ].

(** With a first result that carries a position, [geocode_location]
    returns it and shows nothing. *)
Lemma geocode_location_first (w : world) (location : string) (response lat lon : pyval) :
  net w (geocode_url P location) = Body response ->
  first_position response lat lon ->
  geocode_location P location w = (Ok (lat, lon), w).
Proof.
  intros Hnet (items & best & rest & position & -> & Hres & Hpos & Hlat & Hlon).
  unfold geocode_location, bind, requests_get_json, lift.
  rewrite Hnet. unfold Py.get, Py.getitem at 1. rewrite Hres.
  cbn [Py.truthy Py.first]. rewrite Hpos, Hlat, Hlon. reflexivity.
Qed.

(** X13. With the network down, [geocode_location] and
    [get_route_details] raise the [RequestException] and show nothing:
    neither has a handler, and so the route lookup of the page raises
    too, while [get_weather_details] returns its "N/A" pair. *)
Theorem network_down (w : world) (text : string) :
  (forall url, net w url = NetFail text) ->
  (forall location,
      geocode_location P location w = (Raise (RequestException text), w))
  /\ (forall start_lat start_lon end_lat end_lon vehicle e,
        get_route_details P start_lat start_lon end_lat end_lon vehicle e w
        = (Raise (RequestException text), w))
  /\ (forall start_location end_location vehicle e,
        start_location <> "" -> end_location <> "" ->
        route_lookup P start_location end_location vehicle e w
        = (Raise (RequestException text), w))
  /\ (forall city,
        city <> "" ->
        fst (get_weather_details P city w) = Ok (VStr "N/A", VStr "Error fetching data")).
Proof.
  intros Hdown.
  assert (Hgeo : forall location,
             geocode_location P location w = (Raise (RequestException text), w)).
  { intros location. unfold geocode_location, bind, requests_get_json.
    now rewrite Hdown. }
  split; [exact Hgeo |]. split; [| split].
  - intros. unfold get_route_details, bind, requests_get_json. now rewrite Hdown.
  - intros start_location end_location vehicle e Hs He.
    unfold route_lookup, bind. cbn [Py.truthy].
    destruct (String.eqb_spec start_location "") as [E | _]; [contradiction |].
    destruct (String.eqb_spec end_location "") as [E | _]; [contradiction |].
    cbn [negb andb]. now rewrite Hgeo.
  - intros city Hcity.
    now rewrite (get_weather_details_netfail P w city text Hcity (Hdown _)).
Qed.

(** Whatever [get_route_details] returns is all [None] with the error
    shown, or three floats and the geometry with nothing shown. *)
Lemma get_route_details_shape (w w' : world)
    (start_lat start_lon end_lat end_lon : pyval) (vehicle : string)
    (e a b c g : pyval) :
  get_route_details P start_lat start_lon end_lat end_lon vehicle e w
  = (Ok (a, b, c, g), w') ->
  ((a, b, c, g) = absent_route
   /\ w' = with_ui w (ui w ++ [StError "Unable to calculate route. Check your locations!"])%list)
  \/ (w' = w /\ exists t d z, a = VFloat t /\ b = VFloat d /\ c = VFloat z).
Proof.
  unfold get_route_details. intros H.
  step H. step H. destruct a1.
  - do 12 step H. unfold ret in H. inversion H. subst.
    right. split; [reflexivity |]. do 3 eexists. repeat split.
  - left. unfold bind, st_error, emit, ret in H. inversion H. subst.
    split; reflexivity.
Qed.

(** X14. [get_route_details] never touches the table or the journal,
    and what it returns is all-or-nothing: four [None]s together with
    the message "Unable to calculate route. Check your locations!", or a
    float time, a float distance and a float estimate with nothing
    shown. *)
Theorem get_route_details_all_or_nothing (w w' : world)
    (start_lat start_lon end_lat end_lon : pyval) (vehicle : string)
    (e a b c g : pyval) :
  get_route_details P start_lat start_lon end_lat end_lon vehicle e w
  = (Ok (a, b, c, g), w') ->
  db w' = db w /\ journal w' = journal w
  /\ ((a = VNone /\ b = VNone /\ c = VNone /\ g = VNone
       /\ ui w' = (ui w ++ [StError "Unable to calculate route. Check your locations!"])%list)
      \/ (ui w' = ui w /\ exists t d z, a = VFloat t /\ b = VFloat d /\ c = VFloat z)).
Proof.
  intros H. apply get_route_details_shape in H.
  destruct H as [[Habs ->] | [-> Hfloats]].
  - inversion Habs. subst. repeat split. left. repeat split.
  - repeat split. right. split; [reflexivity | exact Hfloats].
Qed.

(** X15. The block that shows a route (line 223) is entered only with
    a float travel time and a float distance that are both non-zero, a
    float estimate, and nothing shown by the routing call: a route of
    zero length or zero duration, like an absent one, is not shown. *)
Theorem route_lookup_shows (w w' : world) (start_location end_location vehicle : string)
    (e a b c g : pyval) :
  route_lookup P start_location end_location vehicle e w = (Ok (Some (a, b, c, g)), w') ->
  exists t d z,
    a = VFloat t /\ b = VFloat d /\ c = VFloat z
    /\ (t =? 0)%float = false /\ (d =? 0)%float = false.
Proof.
  unfold route_lookup. intros H.
  destruct (Py.truthy (VStr start_location) && Py.truthy (VStr end_location));
    [| discriminate H].
  apply bind_ok in H. destruct H as ([lat1 lon1] & w1 & _ & H).
  apply bind_ok in H. destruct H as ([lat2 lon2] & w2 & _ & H).
  destruct (Py.truthy lat1 && Py.truthy lat2); [| discriminate H].
  apply bind_ok in H. destruct H as ([[[a' b'] c'] g'] & w3 & Hroute & H).
  destruct (Py.truthy a' && Py.truthy b') eqn:Htruthy; [| discriminate H].
  unfold ret in H. inversion H. subst a' b' c' g' w3.
  apply andb_prop in Htruthy. destruct Htruthy as [Ha Hb].
  apply get_route_details_shape in Hroute.
  destruct Hroute as [[Habs _] | [_ (t & d & z & -> & -> & ->)]].
  - inversion Habs. subst. discriminate Ha.
  - exists t, d, z. cbn [Py.truthy] in Ha, Hb.
    repeat split; now apply negb_true_iff.
Qed.

(** X16. A place whose latitude comes back as exactly 0 cannot be
    routed from: the guard at line 217 reads the zero as an absent
    result, so no route is requested and nothing at all is shown. *)
Theorem route_lookup_equator (w : world) (start_location end_location vehicle : string)
    (e response lat lon response' lat' lon' : pyval) :
  start_location <> "" ->
  end_location <> "" ->
  net w (geocode_url P start_location) = Body response ->
  first_position response lat lon ->
  net w (geocode_url P end_location) = Body response' ->
  first_position response' lat' lon' ->
  lat = VFloat 0 \/ lat = VInt 0 ->
  route_lookup P start_location end_location vehicle e w = (Ok None, w).
Proof.
  intros Hs He Hnet Hpos Hnet' Hpos' Hzero.
  unfold route_lookup, bind. cbn [Py.truthy].
  destruct (String.eqb_spec start_location "") as [E | _]; [contradiction |].
  destruct (String.eqb_spec end_location "") as [E | _]; [contradiction |].
  cbn [negb andb].
  rewrite (geocode_location_first w start_location response lat lon Hnet Hpos).
  rewrite (geocode_location_first w end_location response' lat' lon' Hnet' Hpos').
  destruct Hzero as [-> | ->]; reflexivity.
Qed.

End RoutesMore.

(** ** Estimates from the page's inputs *)

Lemma slider_values_convert :
  forallb (fun n => match PyNum.float_of_int n with
                    | Ok f => negb (f =? 0)%float
                    | Raise _ => false
                    end) slider_values = true.
Proof. vm_compute. reflexivity. Qed.

(** X17. For each of the values 1..30 that the fuel-efficiency slider
    offers, the estimate is computed without raising, whatever the
    distance and the vehicle type; a fuel efficiency of zero, int or
    float, raises [ZeroDivisionError]. *)
Theorem estimate_emissions_slider (vehicle : string) (d : float) :
  (forall n, In n slider_values -> exists z, estimate_emissions vehicle d (VInt n) = Ok z)
  /\ estimate_emissions vehicle d (VInt 0) = Raise ZeroDivisionError
  /\ estimate_emissions vehicle d (VFloat 0) = Raise ZeroDivisionError.
Proof.
  split; [| split; reflexivity].
  intros n Hin.
  pose proof (proj1 (forallb_forall _ _) slider_values_convert n Hin) as Hn.
  cbv beta in Hn.
  destruct (PyNum.float_of_int n) as [f |] eqn:Hf; [| discriminate Hn].
  apply negb_true_iff in Hn.
  exists ((d / f) * factor_of vehicle)%float.
  apply estimate_emissions_product.
  unfold PyNum.truediv. cbn [PyNum.as_num PyNum.to_float]. rewrite Hf.
  unfold PyNum.float_div. now rewrite Hn.
Qed.

(** ** What may change the table and the journal *)

Section Frames.

Variable P : platform.

Ltac nothing_shown :=
  split; [| split; [| split]]; try first [reflexivity | congruence];
  exists []; now rewrite app_nil_r.

Lemma only_shows_ret {A} (a : A) : only_shows (ret a).
Proof. intros w. cbn. nothing_shown. Qed.

Lemma only_shows_lift {A} (r : result A) : only_shows (lift r).
Proof. intros w. cbn. nothing_shown. Qed.

Lemma only_shows_emit (e : ui_event) : only_shows (emit e).
Proof.
  intros w. cbn.
  split; [reflexivity | split; [reflexivity | split; [reflexivity |]]].
  now exists [e].
Qed.

Lemma only_shows_get (url : string) : only_shows (requests_get_json url).
Proof.
  intros w. unfold requests_get_json. destruct (net w url) eqn:Hnet; cbn [snd]; nothing_shown.
Qed.

Lemma only_shows_load : only_shows load_journal.
Proof.
  intros w. unfold load_journal.
  destruct (journal w) as [[v | raw | raw | limit] |] eqn:Hj; cbn [snd]; nothing_shown.
Qed.

Lemma only_shows_bind {A B} (c : M A) (k : A -> M B) :
  only_shows c -> (forall a, only_shows (k a)) -> only_shows (bind c k).
Proof.
  intros Hc Hk w. unfold bind. specialize (Hc w).
  destruct (c w) as [[a | e] w1]; cbn [snd] in *; [| exact Hc].
  destruct Hc as (Hn & Hd & Hj & shown & Hu).
  destruct (Hk a w1) as (Hn' & Hd' & Hj' & shown' & Hu').
  rewrite Hn', Hd', Hj', Hu', Hn, Hd, Hj, Hu.
  split; [reflexivity | split; [reflexivity | split; [reflexivity |]]].
  exists (shown ++ shown')%list. now rewrite app_assoc.
Qed.

Lemma only_shows_try {A} (c : M A) (caught : exn -> bool) (h : exn -> M A) :
  only_shows c -> (forall e, only_shows (h e)) -> only_shows (try_except c caught h).
Proof.
  intros Hc Hh w. unfold try_except. specialize (Hc w).
  destruct (c w) as [[a | e] w1]; cbn [snd] in *; [exact Hc |].
  destruct (caught e); [| exact Hc].
  destruct Hc as (Hn & Hd & Hj & shown & Hu).
  destruct (Hh e w1) as (Hn' & Hd' & Hj' & shown' & Hu').
  rewrite Hn', Hd', Hj', Hu', Hn, Hd, Hj, Hu.
  split; [reflexivity | split; [reflexivity | split; [reflexivity |]]].
  exists (shown ++ shown')%list. now rewrite app_assoc.
Qed.

Lemma only_shows_if {A} (b : bool) (c1 c2 : M A) :
  only_shows c1 -> only_shows c2 -> only_shows (if b then c1 else c2).
Proof. now destruct b. Qed.

Ltac shows :=
  repeat first
    [ apply only_shows_ret
    | apply only_shows_lift
    | apply only_shows_emit
    | apply only_shows_get
    | apply only_shows_load
    | apply only_shows_if
    | apply only_shows_bind; [| intros ?]
    | apply only_shows_try; [| intros ?]
    | match goal with
      | |- only_shows (let '(_, _) := ?x in _) => destruct x
      end ].

Lemma only_shows_weather (city : string) : only_shows (get_weather_details P city).
Proof. unfold get_weather_details, st_error. shows. Qed.

Lemma only_shows_geocode (location : string) : only_shows (geocode_location P location).
Proof. unfold geocode_location, st_error. shows. Qed.

Lemma only_shows_route (start_lat start_lon end_lat end_lon : pyval)
    (vehicle : string) (e : pyval) :
  only_shows (get_route_details P start_lat start_lon end_lat end_lon vehicle e).
Proof. unfold get_route_details, st_error. shows. Qed.

Lemma only_shows_show_routes (routes : list pyval) :
  forall idx, only_shows (show_routes P idx routes).
Proof.
  induction routes as [| route rest IH]; intros idx; cbn [show_routes].
  - apply only_shows_ret.
  - apply only_shows_bind; [| intros _; apply IH].
    unfold show_route, st_write. shows.
Qed.

(** X18. The three clients, the weather section, the route lookup and
    the Saved Routes page only ever add to what the page shows: whether
    they return or raise, the table and the journal file are as before
    (only [create_user_table], [signup_user] and [save_route] write). *)
Theorem readers_only_show :
  (forall city, only_shows (get_weather_details P city))
  /\ (forall location, only_shows (geocode_location P location))
  /\ (forall start_lat start_lon end_lat end_lon vehicle e,
        only_shows (get_route_details P start_lat start_lon end_lat end_lon vehicle e))
  /\ (forall city, only_shows (weather_section P city))
  /\ (forall start_location end_location vehicle e,
        only_shows (route_lookup P start_location end_location vehicle e))
  /\ only_shows (saved_routes_page P).
Proof.
  split; [exact only_shows_weather |].
  split; [exact only_shows_geocode |].
  split; [exact only_shows_route |].
  split; [| split].
  - intros city. unfold weather_section, st_write.
    apply only_shows_if; [| apply only_shows_ret].
    apply only_shows_bind; [apply only_shows_weather |].
    intros [aqi name]. shows.
  - intros start_location end_location vehicle e. unfold route_lookup.
    apply only_shows_if; [| apply only_shows_ret].
    apply only_shows_bind; [apply only_shows_geocode |]. intros [lat1 lon1].
    apply only_shows_bind; [apply only_shows_geocode |]. intros [lat2 lon2].
    apply only_shows_if; [| apply only_shows_ret].
    apply only_shows_bind; [apply only_shows_route |]. intros [[[a b] c] g].
    shows.
  - unfold saved_routes_page, st_write.
    apply only_shows_bind; [apply only_shows_emit |]. intros _.
    apply only_shows_try; [| intros _; apply only_shows_emit].
    apply only_shows_bind; [apply only_shows_load |]. intros v.
    apply only_shows_bind; [apply only_shows_lift |]. intros routes.
    apply only_shows_show_routes.
Qed.

(** X19. [save_route] either appends the summary after everything the
    journal already holds and shows the success notice, or raises
    before anything is written or shown.  It raises only over a journal
    file that exists and does not hold a list, and what it raises is
    not the [FileNotFoundError] that the code catches: entries already
    saved are never dropped or reordered. *)
Theorem save_route_keeps_entries (w : world) (data : pyval) :
  (exists old,
      holds (journal w) old
      /\ save_route data w
         = (Ok tt,
            with_ui (with_journal w (Some (Parses (VList (old ++ [data])%list))))
                    (ui w ++ [saved_notice])%list))
  \/ (exists e body,
        save_route data w = (Raise e, w)
        /\ is_FileNotFoundError e = false
        /\ journal w = Some body
        /\ forall items, body <> Parses (VList items)).
Proof.
  destruct (journal w) as [[v | raw | raw | limit] |] eqn:Hj.
  - destruct v as [| b | z | f | s | items | items];
      try (right; exists AttributeError; eexists; split;
           [ unfold save_route, bind, try_except, load_journal, lift; rewrite Hj; reflexivity
           | split; [reflexivity | split; [reflexivity |]];
             intros items0 Habs; discriminate Habs ]).
    left. exists items. split; [now right |].
    apply save_route_appends. right. exact Hj.
  - right. exists JSONDecodeError. eexists. split.
    + unfold save_route, bind, try_except, load_journal. rewrite Hj. reflexivity.
    + split; [reflexivity | split; [reflexivity |]]. intros items Habs. discriminate Habs.
  - right. exists UnicodeDecodeError. eexists. split.
    + unfold save_route, bind, try_except, load_journal. rewrite Hj. reflexivity.
    + split; [reflexivity | split; [reflexivity |]]. intros items Habs. discriminate Habs.
  - right. exists (limit_error limit). eexists. split.
    + unfold save_route, bind, try_except, load_journal. rewrite Hj.
      destruct limit; reflexivity.
    + split; [destruct limit; reflexivity | split; [reflexivity |]].
      intros items Habs. discriminate Habs.
  - left. exists []. split; [now left |].
    apply save_route_appends. left. auto.
Qed.

End Frames.

(** ** A journal with a damaged entry *)

Section Damaged.

Variable P : platform.

Lemma show_routes_after_saved (l : list summary) (rest : list pyval) :
  forall (idx : nat) (w : world),
    show_routes P idx (map saved_data l ++ rest)%list w
    = show_routes P (idx + List.length l) rest
        (with_ui w (ui w ++ route_blocks P idx l)%list).
Proof.
  induction l as [| s l IH]; intros idx w.
  - cbn [map app List.length route_blocks]. rewrite Nat.add_0_r, app_nil_r.
    destruct w; reflexivity.
  - cbn [map app List.length route_blocks show_routes]. unfold bind at 1.
    rewrite show_route_saved, IH.
    replace (S idx + List.length l)%nat with (idx + S (List.length l))%nat by lia.
    f_equal. unfold with_ui. cbn [ui net db journal]. now rewrite <- app_assoc.
Qed.

(** X20. When an entry of the journal lacks its "weather_city", the
    Saved Routes page shows every entry before it, then the heading of
    the damaged one, and raises [KeyError]; the entries after it are
    not shown. *)
Theorem saved_routes_page_damaged (w : world) (l : list summary)
    (items : list (string * pyval)) (rest : list pyval) :
  journal w = Some (Parses (VList (map saved_data l ++ VDict items :: rest)%list)) ->
  Py.lookup "weather_city" items = None ->
  saved_routes_page P w
  = (Raise (KeyError "weather_city"),
     with_ui w (ui w ++ StWrite "Saved Routes:"
                :: route_blocks P 0 l
                ++ [StWrite ("Route " ++ decimal (List.length l + 1) ++ ":")])%list).
Proof.
  intros Hj Hkey.
  unfold saved_routes_page, bind at 1, st_write at 1, emit.
  unfold try_except, bind at 1, load_journal. cbn [journal with_ui]. rewrite Hj.
  unfold bind at 1, lift at 1. cbn [iterate].
  rewrite show_routes_after_saved. cbn [show_routes Nat.add].
  unfold bind at 1, show_route, bind at 1, st_write at 1, emit.
  unfold bind at 1, lift at 1, Py.getitem. rewrite Hkey.
  cbn [is_FileNotFoundError]. unfold with_ui. cbn [ui net db journal].
  rewrite <- !app_assoc. reflexivity.
Qed.

End Damaged.

(** ** Instances of the further properties *)

Lemma usernames_stay_distinct_witness :
  let w := Sample.start Sample.offline Sample.one_user None in
  let calls := [Signup "Asha" "Rao" "asha" "x" "9000000002" "KA02" "BS-4";
                Signup "Ravi" "Iyer" "ravi" "y" "9000000003" "KA03" "BS-6";
                Login "asha" "hunter2"; CreateTable] in
  NoDup (usernames (db w))
  /\ NoDup (usernames (db (run_calls Sample.P calls w))).
Proof.
  cbv zeta.
  assert (H : NoDup (usernames (db (Sample.start Sample.offline Sample.one_user None)))).
  { cbn. repeat constructor. intros []. }
  split; [exact H |].
  exact (usernames_stay_distinct Sample.P _ _ H).
Defined.

Lemma signup_user_frame_witness :
  let w := Sample.start Sample.offline Sample.one_user None in
  fits 50 "ravi" = true
  /\ sql_eq Sample.P "ravi" "asha" = false
  /\ fst (login_user Sample.P "asha" "hunter2"
            (snd (signup_user Sample.P "Ravi" "Iyer" "ravi" "y" "9000000003" "KA03" "BS-6" w)))
     = fst (login_user Sample.P "asha" "hunter2" w).
Proof.
  cbv zeta.
  assert (Hfit : fits 50 "ravi" = true) by reflexivity.
  assert (Hapart : sql_eq Sample.P "ravi" "asha" = false) by reflexivity.
  split; [exact Hfit |]. split; [exact Hapart |].
  exact (signup_user_frame Sample.P _ "Ravi" "Iyer" "ravi" "y" "9000000003" "KA03" "BS-6"
           "asha" "hunter2" Hfit Hapart).
Defined.

Lemma first_user_signs_up_and_logs_in_witness :
  let w := Sample.start Sample.offline Scene.fresh_server None in
  exists w1 w2,
    create_user_table w = (Ok tt, w1)
    /\ signup_user Sample.P "Asha" "Rao" "asha" "hunter2" "9000000001" "KA01AB1234" "BS-6" w1
       = (Ok true, w2)
    /\ login_user Sample.P "asha" "hunter2" w2 = (Ok true, w2)
    /\ usernames (db w2) = ["asha"]
    /\ ui w2 = ui w.
Proof.
  cbv zeta.
  apply (first_user_signs_up_and_logs_in Sample.P
           (Sample.start Sample.offline Scene.fresh_server None)
           "Asha" "Rao" "asha" "hunter2" "9000000001" "KA01AB1234" "BS-6");
    reflexivity.
Defined.

Lemma weather_section_unavailable_witness :
  let w := Sample.start (Sample.serving Sample.unknown_station) Sample.nowhere None in
  exists report,
    weather_section Sample.P "Atlantis" w
    = (Ok tt, with_ui w (ui w ++ [StError report; unavailable])%list).
Proof.
  cbv zeta.
  apply (weather_section_unavailable Sample.P
           (Sample.start (Sample.serving Sample.unknown_station) Sample.nowhere None)
           "Atlantis").
  - discriminate.
  - right. exists Sample.unknown_station. split; [reflexivity |].
    exists [("status", VStr "error"); ("data", VStr "Unknown station")].
    split; [reflexivity | left; reflexivity].
Defined.

Lemma weather_section_reading_witness :
  let w := Sample.start (Sample.serving Scene.delhi_reading) Sample.nowhere None in
  weather_section Sample.P "Delhi" w
  = (Ok tt, with_ui w [StWrite "Air Quality Index for Delhi, India: <object>"]).
Proof.
  cbv zeta.
  refine (proj1 (weather_section_reading Sample.P
                   (Sample.start (Sample.serving Scene.delhi_reading) Sample.nowhere None)
                   "Delhi" [("status", VStr "ok"); ("data", VDict Scene.delhi)] Scene.delhi
                   _ eq_refl _ eq_refl _) (VInt 152) eq_refl eq_refl).
  - discriminate.
  - intros status Hs. inversion Hs. reflexivity.
  - intros info Hi. inversion Hi. reflexivity.
Defined.

Lemma network_down_witness :
  let w := Sample.start Sample.offline Sample.nowhere None in
  (forall url, net w url = NetFail "connection refused")
  /\ geocode_location Sample.P "Bengaluru" w
     = (Raise (RequestException "connection refused"), w)
  /\ route_lookup Sample.P "Indiranagar" "Whitefield" "Diesel" (VInt 15) w
     = (Raise (RequestException "connection refused"), w).
Proof.
  cbv zeta.
  assert (H : forall url,
             net (Sample.start Sample.offline Sample.nowhere None) url
             = NetFail "connection refused") by reflexivity.
  split; [exact H |].
  destruct (network_down Sample.P _ "connection refused" H) as (Hgeo & _ & Hlookup & _).
  split; [apply Hgeo | apply Hlookup; discriminate].
Defined.

Lemma get_route_details_all_or_nothing_witness :
  let w := Sample.start (Sample.serving Sample.one_route) Sample.nowhere None in
  get_route_details Sample.P (fst Sample.here) (snd Sample.here)
    (fst Sample.there) (snd Sample.there) "Gasoline" (VInt 15) w
  = (Ok (VFloat 25, VFloat 12.5, VFloat 1.925, Sample.points), w)
  /\ exists t d z, VFloat 25 = VFloat t /\ VFloat 12.5 = VFloat d /\ VFloat 1.925 = VFloat z.
Proof.
  cbv zeta.
  assert (H : get_route_details Sample.P (fst Sample.here) (snd Sample.here)
                (fst Sample.there) (snd Sample.there) "Gasoline" (VInt 15)
                (Sample.start (Sample.serving Sample.one_route) Sample.nowhere None)
              = (Ok (VFloat 25, VFloat 12.5, VFloat 1.925, Sample.points),
                 Sample.start (Sample.serving Sample.one_route) Sample.nowhere None))
    by (vm_compute; reflexivity).
  split; [exact H |].
  destruct (get_route_details_all_or_nothing Sample.P _ _ _ _ _ _ _ _ _ _ _ _ H)
    as (_ & _ & [(Habs & _) | (_ & Hfloats)]).
  - discriminate Habs.
  - exact Hfloats.
Defined.

Lemma route_lookup_shows_witness :
  let w := Sample.start Scene.tomtom Sample.nowhere None in
  route_lookup Sample.P "Indiranagar" "Whitefield" "Gasoline" (VInt 15) w
  = (Ok (Some (VFloat 25, VFloat 12.5, VFloat 1.925, Sample.points)), w)
  /\ exists t d z,
      VFloat 25 = VFloat t /\ VFloat 12.5 = VFloat d /\ VFloat 1.925 = VFloat z
      /\ (t =? 0)%float = false /\ (d =? 0)%float = false.
Proof.
  cbv zeta.
  assert (H : route_lookup Sample.P "Indiranagar" "Whitefield" "Gasoline" (VInt 15)
                (Sample.start Scene.tomtom Sample.nowhere None)
              = (Ok (Some (VFloat 25, VFloat 12.5, VFloat 1.925, Sample.points)),
                 Sample.start Scene.tomtom Sample.nowhere None))
    by (vm_compute; reflexivity).
  split; [exact H |].
  exact (route_lookup_shows Sample.P _ _ _ _ _ _ _ _ _ _ H).
Defined.

Lemma route_lookup_equator_witness :
  let w := Sample.start (Sample.serving Scene.equator) Sample.nowhere None in
  route_lookup Sample.P "Kampala Road" "Entebbe" "Diesel" (VInt 15) w = (Ok None, w).
Proof.
  cbv zeta.
  apply (route_lookup_equator Sample.P
           (Sample.start (Sample.serving Scene.equator) Sample.nowhere None)
           "Kampala Road" "Entebbe" "Diesel" (VInt 15)
           Scene.equator (VFloat 0) (VFloat 32.58)
           Scene.equator (VFloat 0) (VFloat 32.58)).
  - discriminate.
  - discriminate.
  - reflexivity.
  - unfold first_position, Scene.equator. repeat eexists.
  - reflexivity.
  - unfold first_position, Scene.equator. repeat eexists.
  - left. reflexivity.
Defined.

Lemma saved_routes_page_damaged_witness :
  let w := Sample.start Sample.offline Sample.nowhere
             (Some (Parses (VList [saved_data Sample.commute;
                                   VDict [("start_location", VStr "Hebbal")];
                                   saved_data Sample.airport]))) in
  saved_routes_page Sample.P w
  = (Raise (KeyError "weather_city"),
     with_ui w (StWrite "Saved Routes:" :: route_block Sample.P 0 Sample.commute
                ++ [StWrite "Route 2:"])%list).
Proof.
  cbv zeta.
  apply (saved_routes_page_damaged Sample.P
           (Sample.start Sample.offline Sample.nowhere
              (Some (Parses (VList [saved_data Sample.commute;
                                    VDict [("start_location", VStr "Hebbal")];
                                    saved_data Sample.airport]))))
           [Sample.commute] [("start_location", VStr "Hebbal")]
           [saved_data Sample.airport]);
    reflexivity.
Defined.
